(** * Energy-share dashboard: status classification, rendering and API client

    A shallow embedding of the browser-side code of the EV-charging
    dashboard (map.js, owner-dashboard.js, the Auth object and the API
    class) together with the properties its specification states.

    The first part holds the embedding, module by module; the second part
    holds the lemmas and theorems. *)

From Stdlib Require Import ZArith Lia Bool Ascii.
From stdpp Require Import gmap strings list pretty.

(** ** JavaScript numbers: the product [n * 0.3]

    Slot counts are integer-valued doubles.  The only non-integer
    arithmetic of the code is [Math.ceil(charger.totalSlots * 0.3)].  A
    finite double is a dyadic number [mant * 2^expo]; the literal [0.3] is
    the double [5404319552844595 * 2^-54], and the product of an integer
    with it is the exact product rounded to 53 significant bits, ties to
    even (IEEE 754 binary64, far from overflow and underflow for the
    integers below [2^53]). *)

Module Float.
Local Open Scope Z_scope.

Record dyadic := Dy { mant : Z; expo : Z }.

Definition prec : Z := 53.

Definition three_tenths : dyadic := Dy 5404319552844595 (-54).

(** [p / 2^k] rounded to the nearest integer, ties to even ([0 < k]). *)
Definition round_nearest_even (p k : Z) : Z :=
  let q := p / 2 ^ k in
  let r := p mod 2 ^ k in
  let h := 2 ^ (k - 1) in
  if (h <? r) || ((r =? h) && Z.odd q) then q + 1 else q.

(** The double nearest to [p * 2^e], for [0 < p]. *)
Definition round_pos (p e : Z) : dyadic :=
  let k := Z.log2 p + 1 - prec in
  if k <=? 0 then Dy p e else Dy (round_nearest_even p k) (e + k).

Definition neg (d : dyadic) : dyadic := Dy (- mant d) (expo d).

(** [n * d] in double arithmetic, [n] an integer. *)
Definition mul_int (n : Z) (d : dyadic) : dyadic :=
  let p := n * mant d in
  if p =? 0 then Dy 0 0
  else if 0 <? p then round_pos p (expo d)
  else neg (round_pos (- p) (expo d)).

(** [Math.ceil]: the result is an integer. *)
Definition ceil (d : dyadic) : Z :=
  if 0 <=? expo d then mant d * 2 ^ expo d
  else - ((- mant d) / 2 ^ (- expo d)).

(** The ceiling of the real number [3n/10]. *)
Definition ceil_three_tenths (n : Z) : Z := (3 * n + 9) / 10.

End Float.

(** ** JavaScript values

    The values that cross the API boundary are decoded JSON.  A number
    literal [m / 10^scale] is kept as written; [undefined] is the missing
    [value]. *)

Module JS.

#[local] Set Warnings "-register-all".

Inductive json :=
| JNull
| JBool (b : bool)
| JNum (m : Z) (scale : nat)
| JStr (s : string)
| JArr (items : list json)
| JObj (fields : list (string * json)).

Definition value := option json.

Definition undefined : value := None.

(** An error object: its name and its [message]. *)
Record exn := Exn { exn_name : string; message : string }.

(** ToBoolean. *)
Definition truthy (v : value) : bool :=
  match v with
  | None | Some JNull => false
  | Some (JBool b) => b
  | Some (JNum m _) => negb (m =? 0)%Z
  | Some (JStr s) => negb (String.eqb s "")
  | Some (JArr _) | Some (JObj _) => true
  end.

Fixpoint assoc (k : string) (fields : list (string * json)) : value :=
  match fields with
  | [] => None
  | (k', v) :: rest => if String.eqb k k' then Some v else assoc k rest
  end.

(** [v.k] for a property [k] that no prototype defines: [inl] is the
    TypeError of reading a property of [null] or [undefined]. *)
Definition prop (v : value) (k : string) : exn + value :=
  match v with
  | None | Some JNull =>
      inl (Exn "TypeError" ("Cannot read properties of null or undefined (reading '" +:+ k +:+ "')"))
  | Some (JObj fields) => inr (assoc k fields)
  | Some _ => inr undefined
  end.

(** [v?.k] *)
Definition opt_prop (v : value) (k : string) : value :=
  match v with
  | Some (JObj fields) => assoc k fields
  | _ => undefined
  end.

(** [a || b] *)
Definition or_else (a b : value) : value := if truthy a then a else b.

(** [v === s] for a string [s]. *)
Definition is_string (v : value) (s : string) : bool :=
  match v with
  | Some (JStr s') => String.eqb s' s
  | _ => false
  end.

End JS.

(** ** Data model *)

(** A decimal number [digits / 10^scale] (coordinates, ratings). *)
Record decimal := Dec { digits : Z; scale : nat }.

(** A charging station as the rendering code reads it.  The optional
    fields are the ones the code tests for presence. *)
Record Charger := {
  _id : string;
  name : string;
  address : option string;
  latitude : decimal;
  longitude : decimal;
  chargerType : string;
  totalSlots : Z;
  availableSlots : Z;
  rating : option decimal;
  description : option string
}.

(** ** The page: everything the scripts read and write *)

Record Page := {
  localStorage : gmap string string;
  dom : gmap string string;       (* element id to its innerHTML or textContent *)
  href : string;                  (* window.location.href *)
  reloads : nat;                  (* calls of location.reload() *)
  alerts : list string;           (* alert() messages, oldest first *)
  chargers : list Charger;        (* map.js: let chargers *)
  selectedCharger : option Charger;  (* map.js: let selectedCharger *)
  (* owner-dashboard.js: let ownerStations, the items of the decoded
     answer as they came, a [null] item included *)
  ownerStations : list JS.json
}.

Definition with_localStorage (f : gmap string string → gmap string string) (p : Page) : Page :=
  {| localStorage := f (localStorage p); dom := dom p; href := href p;
     reloads := reloads p; alerts := alerts p; chargers := chargers p;
     selectedCharger := selectedCharger p; ownerStations := ownerStations p |}.

Definition with_dom (f : gmap string string → gmap string string) (p : Page) : Page :=
  {| localStorage := localStorage p; dom := f (dom p); href := href p;
     reloads := reloads p; alerts := alerts p; chargers := chargers p;
     selectedCharger := selectedCharger p; ownerStations := ownerStations p |}.

Definition with_href (h : string) (p : Page) : Page :=
  {| localStorage := localStorage p; dom := dom p; href := h;
     reloads := reloads p; alerts := alerts p; chargers := chargers p;
     selectedCharger := selectedCharger p; ownerStations := ownerStations p |}.

Definition with_reload (p : Page) : Page :=
  {| localStorage := localStorage p; dom := dom p; href := href p;
     reloads := S (reloads p); alerts := alerts p; chargers := chargers p;
     selectedCharger := selectedCharger p; ownerStations := ownerStations p |}.

Definition with_alert (msg : string) (p : Page) : Page :=
  {| localStorage := localStorage p; dom := dom p; href := href p;
     reloads := reloads p; alerts := alerts p ++ [msg]; chargers := chargers p;
     selectedCharger := selectedCharger p; ownerStations := ownerStations p |}.

Definition with_selectedCharger (c : Charger) (p : Page) : Page :=
  {| localStorage := localStorage p; dom := dom p; href := href p;
     reloads := reloads p; alerts := alerts p; chargers := chargers p;
     selectedCharger := Some c; ownerStations := ownerStations p |}.

Definition with_ownerStations (l : list JS.json) (p : Page) : Page :=
  {| localStorage := localStorage p; dom := dom p; href := href p;
     reloads := reloads p; alerts := alerts p; chargers := chargers p;
     selectedCharger := selectedCharger p; ownerStations := l |}.

(** ** Running scripts: state, exceptions and promises that never settle

    A script step transforms the page and either returns, throws, or
    awaits a promise that never settles ([Hang]); what follows an [await]
    runs only when the awaited promise is fulfilled. *)

Inductive outcome (A : Type) :=
| Ok (a : A)
| Throw (e : JS.exn)
| Hang.
Arguments Ok {A} a.
Arguments Throw {A} e.
Arguments Hang {A}.

Definition M (A : Type) : Type := Page → outcome A * Page.

#[export] Instance M_ret : MRet M := λ A a p, (Ok a, p).

#[export] Instance M_bind : MBind M := λ A B f m p,
  match m p with
  | (Ok a, p') => f a p'
  | (Throw e, p') => (Throw e, p')
  | (Hang, p') => (Hang, p')
  end.

Definition throw {A} (e : JS.exn) : M A := λ p, (Throw e, p).

(** [try { m } catch (err) { h err }] *)
Definition try_catch {A} (m : M A) (h : JS.exn → M A) : M A := λ p,
  match m p with
  | (Throw e, p') => h e p'
  | r => r
  end.

(** A property read that may raise a TypeError. *)
Definition lift {A} (r : JS.exn + A) : M A :=
  match r with
  | inl e => throw e
  | inr a => mret a
  end.

Definition getItem (k : string) : M (option string) := λ p, (Ok (localStorage p !! k), p).

Definition setItem (k v : string) : M () := λ p, (Ok (), with_localStorage <[k:=v]> p).

Definition removeItem (k : string) : M () := λ p, (Ok (), with_localStorage (delete k) p).

Definition reload : M () := λ p, (Ok (), with_reload p).

Definition navigate (h : string) : M () := λ p, (Ok (), with_href h p).

Definition alert (msg : string) : M () := λ p, (Ok (), with_alert msg p).

(** [document.getElementById(id).innerHTML = html] (or [textContent]):
    a TypeError when the element is missing. *)
Definition set_content (id html : string) : M () := λ p,
  match dom p !! id with
  | Some _ => (Ok (), with_dom <[id:=html]> p)
  | None => (Throw (JS.Exn "TypeError" "Cannot set properties of null"), p)
  end.

(** ** The browser and the network

    What the scripts call but do not define.  A [fetch] either fulfils
    with a response after [t] milliseconds, rejects after [t]
    milliseconds, or stays pending; a response body either decodes,
    fails to decode, or never arrives.  The answer of the network is a
    function of the request.  The functions of the platform whose output
    no property depends on (number and JSON formatting, the reading of a
    station record, the dates of the recent-bookings panel) are
    parameters. *)

Record Request := {
  req_method : string;
  req_url : string;
  req_authorization : option string;
  req_body : option JS.json
}.

Inductive Body :=
| BodyJson (j : JS.json)
| BodyFails (e : JS.exn)
| BodyStalls.

Record Response := { status : Z; body : Body }.

Inductive Transport :=
| Responds (t : N) (r : Response)
| Fails (t : N) (e : JS.exn)
| Silent.

Class Browser := {
  network : Request → Transport;
  timer_first : bool;             (* a timer and a network task due in the same millisecond *)
  abort_error : JS.exn;           (* the AbortError of an aborted fetch *)
  ToString : JS.json → string;
  JSON_stringify : JS.json → string;
  stringify_station : Charger → string;   (* JSON.stringify of a station record *)
  toFixed : decimal → nat → string;
  (* the station record that the code reads from a decoded list item *)
  station_of_json : JS.json → Charger;
  (* owner-dashboard.js reads a global [ownerChargers] that no script of
     the repository declares: [None] when the page does not bind it
     either (reading it throws a ReferenceError), [Some b] when it does,
     [b] being the value of [ownerChargers.length === 0] *)
  ownerChargers_is_empty : option bool;
  (* the markup of the recent-bookings panel for the collected bookings
     and their station names: sorted by date, dates in the browser's
     locale; [inl] when building it throws *)
  recent_bookings_html : list (JS.json * string) → JS.exn + string
}.

(** [JSON.parse]: [inl] is the SyntaxError of a text that is not JSON. *)
Class Parser := {
  JSON_parse : string → JS.exn + JS.json
}.

(** ** The API client (class API) *)

Module API.
Import JS.

Definition API_BASE : string := "/api".

Definition DEMO_CHARGERS : json :=
  JArr [
    JObj [("_id", JStr "demo-1"); ("name", JStr "Oxford Street Hub");
          ("address", JStr "123 Oxford Street, London W1D 2EH");
          ("latitude", JNum 515161 4); ("longitude", JNum (-1426) 4);
          ("chargerType", JStr "DC Fast"); ("totalSlots", JNum 8 0);
          ("availableSlots", JNum 6 0); ("rating", JNum 48 1)];
    JObj [("_id", JStr "demo-2"); ("name", JStr "Tower Bridge Plaza");
          ("address", JStr "Tower Bridge, London SE1 2UP");
          ("latitude", JNum 515055 4); ("longitude", JNum (-754) 4);
          ("chargerType", JStr "Level 2"); ("totalSlots", JNum 6 0);
          ("availableSlots", JNum 2 0); ("rating", JNum 45 1)];
    JObj [("_id", JStr "demo-3"); ("name", JStr "Green Park Station");
          ("address", JStr "Green Park, London SW1A 1AX");
          ("latitude", JNum 515036 4); ("longitude", JNum (-1496) 4);
          ("chargerType", JStr "Level 2"); ("totalSlots", JNum 4 0);
          ("availableSlots", JNum 1 0); ("rating", JNum 42 1)]
  ].

Definition DEMO_LEADERBOARD : json :=
  JArr [
    JObj [("_id", JStr "u1"); ("name", JStr "John Smith");
          ("greenScore", JNum 175 0); ("totalChargingTime", JNum 175 1)];
    JObj [("_id", JStr "u2"); ("name", JStr "Sarah Johnson");
          ("greenScore", JNum 150 0); ("totalChargingTime", JNum 15 0)]
  ].

(** [setTimeout(() => controller.abort(), 10000)] *)
Definition TIMEOUT_MS : N := 10000.

(** The failure shape [{ error: err.message, offline: true }]. *)
Definition offline_error (msg : string) : json :=
  JObj [("error", JStr msg); ("offline", JBool true)].

Section Client.
Context `{Browser}.

(** Does a transport event due after [t] milliseconds run before the
    abort timer armed for [ms] milliseconds? *)
Definition before_abort (ms t : N) : bool :=
  (t <? ms)%N || ((t =? ms)%N && negb timer_first).

(** [await fetch(url, options)] with [options.signal] aborted after [ms]
    milliseconds. *)
Definition fetch_with_abort (ms : N) (options : Request) : M Response :=
  match network options with
  | Responds t r => if before_abort ms t then mret r else throw abort_error
  | Fails t e => if before_abort ms t then throw e else throw abort_error
  | Silent => throw abort_error
  end.

(** [await response.json()]; the abort timer is cleared by then. *)
Definition response_json (r : Response) : M json :=
  match body r with
  | BodyJson j => mret j
  | BodyFails e => throw e
  | BodyStalls => λ p, (Hang, p)
  end.

Definition bearer (token : option string) : option string :=
  match token with
  | Some t => if String.eqb t "" then None else Some ("Bearer " +:+ t)
  | None => None
  end.

(** The [options] of a request (and its URL), given the stored token;
    a body is attached for truthy [data] only. *)
Definition options_for (token : option string) (method endpoint : string)
    (data : option json) : Request :=
  {| req_method := method;
     req_url := API_BASE +:+ endpoint;
     req_authorization := bearer token;
     req_body := if truthy data then data else None |}.

Definition request (method endpoint : string) (data : option json) : M json :=
  token ← getItem "token";
  let options := options_for token method endpoint data in
  try_catch
    (response ← fetch_with_abort TIMEOUT_MS options;
     (if (status response =? 401)%Z
      then removeItem "token" ;; removeItem "user" ;; reload
      else mret ()) ;;
     response_json response)
    (λ err, mret (offline_error (message err))).

Definition login (email password : string) : M json :=
  request "POST" "/auth/login"
    (Some (JObj [("email", JStr email); ("password", JStr password)])).

(** [result.error || result.offline] *)
Definition failed (result : json) : M bool :=
  e ← lift (prop (Some result) "error");
  if truthy e then mret true
  else o ← lift (prop (Some result) "offline"); mret (truthy o).

Definition getAllChargers : M json :=
  result ← request "GET" "/chargers" None;
  failed result ≫= λ bad : bool,
  if bad then mret DEMO_CHARGERS else mret result.

Definition getOwnerChargers : M json :=
  request "GET" "/chargers/owner/list" None.

Definition getChargerBookings (chargerId : string) : M json :=
  request "GET" ("/bookings/charger/" +:+ chargerId) None.

Definition getLeaderboard : M json :=
  result ← request "GET" "/users/leaderboard" None;
  failed result ≫= λ bad : bool,
  if bad then mret DEMO_LEADERBOARD else mret result.

Definition register (name email password role : string) : M json :=
  request "POST" "/auth/register"
    (Some (JObj [("name", JStr name); ("email", JStr email);
                 ("password", JStr password); ("role", JStr role)])).

Definition deleteCharger (id : string) : M json :=
  request "DELETE" ("/chargers/" +:+ id) None.

(** The default values that [getUserImpact] returns in place of a failure. *)
Definition default_impact : json :=
  JObj [("greenScore", JNum 50 0); ("totalSessions", JNum 0 0);
        ("estimatedCO2Saved", JNum 0 0); ("totalChargingTime", JNum 0 0)].

Definition getUserImpact : M json :=
  result ← request "GET" "/users/impact" None;
  failed result ≫= λ bad : bool,
  if bad then mret default_impact else mret result.

End Client.
End API.

(** ** Session state (object Auth) *)

Module Auth.
Import JS.

Section Session.
Context `{Browser}.

(** A value inside a string concatenation or a template literal. *)
Definition display (v : value) : string :=
  match v with
  | Some j => ToString j
  | None => "undefined"
  end.

(** [!result || !result.token]: the property is read only of a truthy
    [result]. *)
Definition no_token (result : json) : M bool :=
  if truthy (Some result)
  then t ← lift (prop (Some result) "token"); mret (negb (truthy t))
  else mret true.

Definition login (email password role : string) : M () :=
  try_catch
    (result ← API.login email password;
     no_token result ≫= λ missing : bool,
     if missing then
       alert ("❌ Login failed: "
              +:+ display (or_else (or_else (opt_prop (Some result) "message")
                                            (opt_prop (Some result) "error"))
                                   (Some (JStr "Please check your credentials")))
              +:+ "

Tip: Try demo@example.com / password123")
     else
       user ← lift (prop (Some result) "user");
       user_role ← lift (prop user "role");
       if negb (is_string user_role role) then
         alert ("❌ Wrong login portal!

You are a " +:+ display user_role +:+ ".
Please use the " +:+ display user_role +:+ " login page.")
       else
         token ← lift (prop (Some result) "token");
         setItem "token" (display token) ;;
         setItem "user" (match user with Some u => JSON_stringify u | None => "undefined" end) ;;
         navigate (if is_string user_role "owner"
                   then "/public/owner.html" else "/public/dashboard.html"))
    (λ err, alert ("❌ Login error: " +:+ message err)).

Definition logout : M () :=
  removeItem "token" ;; removeItem "user" ;; navigate "/public/index.html".

Definition isAuthenticated : M bool :=
  token ← getItem "token";
  mret (match token with Some t => negb (String.eqb t "") | None => false end).

(** [register]: as [login] without the portal check; the template of the
    success message reads [result.user.name] once both keys are stored. *)
Definition register (name email password role : string) : M () :=
  try_catch
    (result ← API.register name email password role;
     no_token result ≫= λ missing : bool,
     if missing then
       alert ("❌ Registration failed: "
              +:+ display (or_else (or_else (opt_prop (Some result) "message")
                                            (opt_prop (Some result) "error"))
                                   (Some (JStr "Please try again"))))
     else
       token ← lift (prop (Some result) "token");
       setItem "token" (display token) ;;
       user ← lift (prop (Some result) "user");
       setItem "user" (match user with Some u => JSON_stringify u | None => "undefined" end) ;;
       user_name ← lift (prop user "name");
       user_role ← lift (prop user "role");
       navigate (if is_string user_role "owner"
                 then "/public/owner.html" else "/public/dashboard.html"))
    (λ err, alert ("❌ Registration error: " +:+ message err)).

(** [user ? JSON.parse(user) : null] for the stored [user]. *)
Definition getCurrentUser `{Parser} : M value :=
  user ← getItem "user";
  match user with
  | Some s =>
      if String.eqb s "" then mret (Some JNull)
      else j ← lift (JSON_parse s); mret (Some j)
  | None => mret (Some JNull)
  end.

Definition requireAuth : M bool :=
  isAuthenticated ≫= λ authenticated : bool,
  if authenticated then mret true
  else navigate "/public/index.html" ;; mret false.

End Session.
End Auth.

(** ** Generated markup

    A template literal is a sequence of literal chunks and substitutions.
    The embedding keeps that sequence and records, for a substitution of
    user-supplied text, the field it comes from, the text as stored and
    the text as written into the markup; the fragment itself is the
    concatenation of the chunks. *)

Inductive field := Name | Address | Description.

Inductive piece :=
| Lit (s : string)                        (* text of the template *)
| Data (s : string)                       (* other station data: type, id, counts, status *)
| User (f : field) (raw shown : string)   (* a name, an address or a description *)
| Station (c : Charger) (shown : string). (* the whole station record, serialised *)

Definition text (p : piece) : string :=
  match p with
  | Lit s | Data s | User _ _ s | Station _ s => s
  end.

Definition render (ps : list piece) : string := foldr (λ p s, text p +:+ s) "" ps.

(** The double-quote character. *)
Definition dq : string := String "034"%char EmptyString.

(** [s.replace(/c/g, rep)] for a single character [c]. *)
Fixpoint replace_char (c : ascii) (rep s : string) : string :=
  match s with
  | EmptyString => EmptyString
  | String x rest =>
      if Ascii.eqb x c then rep +:+ replace_char c rep rest
      else String x (replace_char c rep rest)
  end.

(** Does [s] start with [pat]? *)
Fixpoint starts_with (pat s : string) {struct pat} : bool :=
  match pat with
  | EmptyString => true
  | String a pat' =>
      match s with
      | EmptyString => false
      | String b s' => Ascii.eqb a b && starts_with pat' s'
      end
  end.

(** [s.replace(pat, rep)] for a string pattern: the first occurrence. *)
Fixpoint replace_first (pat rep s : string) : string :=
  if starts_with pat s
  then rep +:+ String.substring (String.length pat) (String.length s - String.length pat) s
  else match s with
       | EmptyString => EmptyString
       | String x rest => String x (replace_first pat rep rest)
       end.

(** A string field that is present and not empty (truthy). *)
Definition present (o : option string) : option string :=
  match o with
  | Some s => if String.eqb s "" then None else Some s
  | None => None
  end.

(** A rating that is present and not zero (truthy). *)
Definition rated (o : option decimal) : option decimal :=
  match o with
  | Some r => if (digits r =? 0)%Z then None else Some r
  | None => None
  end.

(** ** Map and station rendering (map.js) *)

Module MapView.

Inductive Status := available | limited | busy.

Definition getChargerStatus (charger : Charger) : Status :=
  if (availableSlots charger =? 0)%Z then busy
  else if (availableSlots charger
           <? Float.ceil (Float.mul_int (totalSlots charger) Float.three_tenths))%Z
       then limited
       else available.

Definition getMarkerColor (status : Status) : string :=
  match status with
  | available => "#2ecc71"
  | limited => "#f39c12"
  | busy => "#e74c3c"
  end.

Definition statusBadgeClass (status : Status) : string :=
  match status with
  | available => "bg-success"
  | limited => "bg-warning"
  | busy => "bg-danger"
  end.

Definition statusLabel (status : Status) : string :=
  match status with
  | available => "Available"
  | limited => "Limited"
  | busy => "Busy"
  end.

Definition statusClass (status : Status) : string :=
  match status with
  | available => "border-success"
  | limited => "border-warning"
  | busy => "border-danger"
  end.

(** [div.textContent = text; return div.innerHTML]: the serialisation of a
    text node replaces [&], [<], [>] and the no-break space U+00A0 (the
    bytes 194 160 of a UTF-8 string) and nothing else. *)
Fixpoint escapeHtml (text : string) : string :=
  match text with
  | EmptyString => EmptyString
  | String c rest =>
      if Ascii.eqb c "&" then "&amp;" +:+ escapeHtml rest
      else if Ascii.eqb c "<" then "&lt;" +:+ escapeHtml rest
      else if Ascii.eqb c ">" then "&gt;" +:+ escapeHtml rest
      else match rest with
           | String d rest' =>
               if Ascii.eqb c "194" && Ascii.eqb d "160"
               then "&nbsp;" +:+ escapeHtml rest'
               else String c (escapeHtml rest)
           | EmptyString => String c EmptyString
           end
  end.

Section Rendering.
Context `{Browser}.

Definition bookingButton (isUser : bool) (charger : Charger) : list piece :=
  if isUser && (0 <? availableSlots charger)%Z then
    [Lit ("
                <button class=" +:+ dq +:+ "btn btn-sm btn-success w-100 mt-2" +:+ dq +:+ " 
                    onclick=" +:+ dq +:+ "selectAndShowBooking('")]
  ++ [Data (_id charger)]
  ++ [Lit ("')" +:+ dq +:+ "
                    style=" +:+ dq +:+ "font-size: 0.85rem;" +:+ dq +:+ ">
                Book Slot
            </button>
        ")]
  else if isUser && (availableSlots charger =? 0)%Z then
    [Lit ("<p class=" +:+ dq +:+ "alert alert-danger mb-0 mt-2 p-2" +:+ dq +:+ ">No available slots</p>")]
  else [].

(** The popup markup; [isUser] is [user && user.role === 'user'] for the
    user of [Auth.getCurrentUser()]. *)
Definition createMarkerPopup (isUser : bool) (charger : Charger) (status : Status) : list piece :=
  [Lit ("
        <div class=" +:+ dq +:+ "charger-popup-content" +:+ dq +:+ " style=" +:+ dq +:+ "font-size: 0.9rem;" +:+ dq +:+ ">
            <div style=" +:+ dq +:+ "min-width: 240px;" +:+ dq +:+ ">
                <div style=" +:+ dq +:+ "display: flex; justify-content: space-between; align-items: flex-start; margin-bottom: 8px; gap: 8px;" +:+ dq +:+ ">
                    <strong style=" +:+ dq +:+ "font-size: 1rem;" +:+ dq +:+ ">")]
  ++ [User Name (name charger) (escapeHtml (name charger))]
  ++ [Lit ("</strong>
                    <span class=" +:+ dq +:+ "badge ")]
  ++ [Data (statusBadgeClass status)]
  ++ [Lit (dq +:+ " style=" +:+ dq +:+ "white-space: nowrap; font-size: 0.75rem;" +:+ dq +:+ ">")]
  ++ [Data (statusLabel status)]
  ++ [Lit ("</span>
                </div>
                
                <div style=" +:+ dq +:+ "border-top: 1px solid #e9ecef; padding-top: 8px;" +:+ dq +:+ ">
                    ")]
  ++ (match present (address charger) with
      | Some a =>
      [Lit ("<div style=" +:+ dq +:+ "margin-bottom: 6px;" +:+ dq +:+ "><small style=" +:+ dq +:+ "color: #666;" +:+ dq +:+ ">")]
      ++ [User Address a (escapeHtml a)]
      ++ [Lit ("</small></div>")]
      | None => []
      end)
  ++ [Lit ("
                    <div style=" +:+ dq +:+ "margin-bottom: 6px;" +:+ dq +:+ "><small style=" +:+ dq +:+ "color: #666;" +:+ dq +:+ ">")]
  ++ [Data (chargerType charger)]
  ++ [Lit ("</small></div>
                    <div style=" +:+ dq +:+ "margin-bottom: 8px;" +:+ dq +:+ "><small style=" +:+ dq +:+ "color: #666;" +:+ dq +:+ ">Slots: <strong>")]
  ++ [Data (pretty (availableSlots charger))]
  ++ [Lit ("</strong> / ")]
  ++ [Data (pretty (totalSlots charger))]
  ++ [Lit ("</small></div>
                    ")]
  ++ (match rated (rating charger) with
      | Some r =>
      [Lit ("<div style=" +:+ dq +:+ "margin-bottom: 8px;" +:+ dq +:+ "><small style=" +:+ dq +:+ "color: #666;" +:+ dq +:+ ">")]
      ++ [Data (toFixed r 1)]
      ++ [Lit (" / 5.0</small></div>")]
      | None => []
      end)
  ++ [Lit ("
                    ")]
  ++ (match present (description charger) with
      | Some d =>
      [Lit ("<div style=" +:+ dq +:+ "margin-bottom: 8px; color: #666;" +:+ dq +:+ "><small>")]
      ++ [User Description d (escapeHtml d)]
      ++ [Lit ("</small></div>")]
      | None => []
      end)
  ++ [Lit ("
                </div>
                
                ")]
  ++ bookingButton isUser charger
  ++ [Lit ("
            </div>
        </div>
    ")].

(** One card of the sidebar list (the body of the [forEach]). *)
Definition card (charger : Charger) : list piece :=
  let status := getChargerStatus charger in
  [Lit ("
            <div class=" +:+ dq +:+ "card mb-2 ")]
  ++ [Data (statusClass status)]
  ++ [Lit (" border-2 cursor-pointer" +:+ dq +:+ " 
                 onclick=" +:+ dq +:+ "showChargerDetail(")]
  ++ [Station charger (replace_char "034" "&quot;" (stringify_station charger))]
  ++ [Lit (")" +:+ dq +:+ ">
                <div class=" +:+ dq +:+ "card-body p-3" +:+ dq +:+ ">
                    <h6 class=" +:+ dq +:+ "mb-1" +:+ dq +:+ ">")]
  ++ [User Name (name charger) (escapeHtml (name charger))]
  ++ [Lit ("</h6>
                    <small class=" +:+ dq +:+ "text-muted d-block" +:+ dq +:+ ">")]
  ++ [User Address (default "No address" (present (address charger))) (escapeHtml (default "No address" (present (address charger))))]
  ++ [Lit ("</small>
                    <small class=" +:+ dq +:+ "text-muted d-block" +:+ dq +:+ ">")]
  ++ [Data (chargerType charger)]
  ++ [Lit ("</small>
                    <div class=" +:+ dq +:+ "mt-2 d-flex justify-content-between" +:+ dq +:+ ">
                        <small><strong>")]
  ++ [Data (pretty (availableSlots charger))]
  ++ [Lit ("/")]
  ++ [Data (pretty (totalSlots charger))]
  ++ [Lit ("</strong> slots</small>
                        <span class=" +:+ dq +:+ "badge ")]
  ++ [Data (replace_first "border-" "bg-" (statusClass status))]
  ++ [Lit (dq +:+ ">")]
  ++ [Data (statusLabel status)]
  ++ [Lit ("</span>
                    </div>
                </div>
            </div>
        ")].

Definition no_chargers : string :=
  "<p class=" +:+ dq +:+ "text-muted" +:+ dq +:+ ">No chargers available</p>".

(** [chargers.slice(0, 10)] rendered card by card. *)
Definition cards (l : list Charger) : list (list piece) := card <$> take 10 l.

Definition renderChargersList : M () := λ p,
  match dom p !! "chargersList" with
  | None => (Ok (), p)
  | Some _ =>
      let html := render (concat (cards (chargers p))) in
      (Ok (), with_dom <["chargersList" := if String.eqb html "" then no_chargers else html]> p)
  end.

(** The body of the detail modal. *)
Definition detail (charger : Charger) : list piece :=
  let status := getChargerStatus charger in
  [Lit ("
        <div class=" +:+ dq +:+ "row mb-3" +:+ dq +:+ ">
            <div class=" +:+ dq +:+ "col-6" +:+ dq +:+ ">
                <small class=" +:+ dq +:+ "text-muted d-block" +:+ dq +:+ ">Type</small>
                <strong>")]
  ++ [Data (chargerType charger)]
  ++ [Lit ("</strong>
            </div>
            <div class=" +:+ dq +:+ "col-6" +:+ dq +:+ ">
                <small class=" +:+ dq +:+ "text-muted d-block" +:+ dq +:+ ">Available Slots</small>
                <strong>")]
  ++ [Data (pretty (availableSlots charger))]
  ++ [Lit ("/")]
  ++ [Data (pretty (totalSlots charger))]
  ++ [Lit ("</strong>
            </div>
        </div>
        <div class=" +:+ dq +:+ "mb-3" +:+ dq +:+ ">
            <span class=" +:+ dq +:+ "badge ")]
  ++ [Data (statusBadgeClass status)]
  ++ [Lit (dq +:+ ">")]
  ++ [Data (statusLabel status)]
  ++ [Lit ("</span>
        </div>
        <hr>
        <p><strong>Address:</strong> ")]
  ++ [User Address (default "N/A" (present (address charger))) (escapeHtml (default "N/A" (present (address charger))))]
  ++ [Lit ("</p>
        <p><strong>Rating:</strong> ")]
  ++ [Data (match rated (rating charger) with Some r => toFixed r 1 | None => "N/A" end)]
  ++ [Lit (" / 5.0</p>
        ")]
  ++ (match present (description charger) with
      | Some d =>
      [Lit ("<p><strong>Description:</strong> ")]
      ++ [User Description d (escapeHtml d)]
      ++ [Lit ("</p>")]
      | None => []
      end)
  ++ [Lit ("
    ")].

Definition showChargerDetail (charger : Charger) : M () :=
  (λ p, (Ok (), with_selectedCharger charger p)) ;;
  set_content "chargerModalTitle" (name charger) ;;
  set_content "chargerModalBody" (render (detail charger)) ;;
  set_content "bookChargerBtn"
    (if (0 <? availableSlots charger)%Z then "Book Now" else "No Slots Available").

(** [createMarkerPopup(charger, status)] as it is called: the user comes
    from the stored session. *)
Definition markerPopup `{Parser} (charger : Charger) (status : Status) : M (list piece) :=
  user ← Auth.getCurrentUser;
  isUser ← (if JS.truthy user
            then r ← lift (JS.prop user "role"); mret (JS.is_string r "user")
            else mret false);
  mret (createMarkerPopup isUser charger status).

(** [chargers.find(c => c._id === chargerId)] *)
Definition find_charger (chargerId : string) (l : list Charger) : option Charger :=
  List.find (λ c, String.eqb (_id c) chargerId) l.

Definition selectAndShowBooking (chargerId : string) : M () := λ p,
  match find_charger chargerId (chargers p) with
  | Some charger => showChargerDetail charger p
  | None => (Ok (), p)
  end.

(** The rank label of the leaderboard row at index [idx]. *)
Definition medalIcon (idx : nat) : string :=
  match idx with
  | 0 => "1."
  | 1 => "2."
  | 2 => "3."
  | _ => pretty (idx + 1) +:+ "."
  end.

(** The text that [div.textContent = v] stores: nothing for [null] and
    [undefined], the string itself, the conversion of any other value. *)
Definition text_content (v : JS.value) : string :=
  match v with
  | None | Some JS.JNull => ""
  | Some (JS.JStr s) => s
  | Some j => ToString j
  end.

(** One row of the leaderboard; reading a property of a [null] item
    throws. *)
Definition leader_row (idx : nat) (user : JS.json) : JS.exn + list piece :=
  match JS.prop (Some user) "name" with
  | inl e => inl e
  | inr user_name =>
      let name := text_content user_name in
      let time := Auth.display (JS.opt_prop (Some user) "totalChargingTime") in
      let score := Auth.display (JS.opt_prop (Some user) "greenScore") in
      inr ([Lit ("
                <div class=" +:+ dq +:+ "d-flex justify-content-between align-items-center mb-3 pb-2 border-bottom" +:+ dq +:+ ">
                    <div>
                        <span class=" +:+ dq +:+ "fw-bold" +:+ dq +:+ ">")]
  ++ [Data (medalIcon idx)]
  ++ [Lit (" ")]
  ++ [User Name name (escapeHtml name)]
  ++ [Lit ("</span>
                        <br>
                        <small class=" +:+ dq +:+ "text-muted" +:+ dq +:+ ">")]
  ++ [Data time]
  ++ [Lit (" hrs charged</small>
                    </div>
                    <span class=" +:+ dq +:+ "badge bg-success" +:+ dq +:+ ">")]
  ++ [Data score]
  ++ [Lit ("</span>
                </div>
            ")])
  end.

(** [leaders.forEach((user, idx) => html += ...)], from index [idx] on. *)
Fixpoint leader_rows (idx : nat) (leaders : list JS.json) : JS.exn + list piece :=
  match leaders with
  | [] => inr []
  | user :: rest =>
      match leader_row idx user with
      | inl e => inl e
      | inr row =>
          match leader_rows (S idx) rest with
          | inl e => inl e
          | inr rows => inr (row ++ rows)
          end
      end
  end.

Definition no_users : string :=
  "<p class=" +:+ dq +:+ "text-muted" +:+ dq +:+ ">No users yet</p>".

Definition loadLeaderboard : M () := λ p,
  match dom p !! "leaderboard" with
  | None => (Ok (), p)
  | Some _ =>
      (data ← API.getLeaderboard;
       let leaders := match data with JS.JArr items => items | _ => [] end in
       html ← match leaders with
              | [] => mret no_users
              | _ => rows ← lift (leader_rows 0 leaders); mret (render rows)
              end;
       set_content "leaderboard" html) p
  end.

End Rendering.
End MapView.

(** ** Owner dashboard (owner-dashboard.js) *)

Module Owner.
Import JS.

(** [b.status !== 'cancelled'] *)
Definition not_cancelled (b : json) : exn + bool :=
  match prop (Some b) "status" with
  | inl e => inl e
  | inr v => inr (negb (is_string v "cancelled"))
  end.

(** [bookings.filter(b => b.status !== 'cancelled')] *)
Fixpoint filter_not_cancelled (items : list json) : exn + list json :=
  match items with
  | [] => inr []
  | b :: rest =>
      match not_cancelled b with
      | inl e => inl e
      | inr keep =>
          match filter_not_cancelled rest with
          | inl e => inl e
          | inr l => inr (if keep then b :: l else l)
          end
      end
  end.

(** [for (const x of l) { s = await f(x, s) }] *)
Fixpoint for_each {A S : Type} (f : A → S → M S) (l : list A) (s : S) : M S :=
  match l with
  | [] => mret s
  | x :: rest => f x s ≫= for_each f rest
  end.

Definition no_stations : string :=
  "<p class=" +:+ dq +:+ "text-muted" +:+ dq
  +:+ ">No stations yet. Add your first charging station above!</p>".

Definition could_not_load : string :=
  "<p class=" +:+ dq +:+ "text-warning" +:+ dq
  +:+ ">Could not load chargers. Please refresh the page.</p>".

Definition no_bookings : string :=
  "<p class=" +:+ dq +:+ "text-muted" +:+ dq +:+ ">No bookings yet</p>".

Definition table_head : list piece :=
  [Lit ("
                <div class=" +:+ dq +:+ "table-responsive" +:+ dq +:+ ">
                    <table class=" +:+ dq +:+ "table table-hover mb-0" +:+ dq +:+ ">
                        <thead class=" +:+ dq +:+ "table-light" +:+ dq +:+ ">
                            <tr>
                                <th>Station Name</th>
                                <th>Type</th>
                                <th>Slots</th>
                                <th>Bookings</th>
                                <th>Actions</th>
                            </tr>
                        </thead>
                        <tbody>
            ")].

Definition table_foot : list piece :=
  [Lit ("
                        </tbody>
                    </table>
                </div>
            ")].

(** A table row with its booking count. *)
Definition row (charger : Charger) (bookingCount : nat) : list piece :=
  [Lit ("
                        <tr>
                            <td>
                                <strong>")]
  ++ [User Name (name charger) (name charger)]
  ++ [Lit ("</strong>
                                <br>
                                <small class=" +:+ dq +:+ "text-muted" +:+ dq +:+ ">")]
  ++ [User Address (default "undefined" (address charger)) (default "undefined" (address charger))]
  ++ [Lit ("</small>
                            </td>
                            <td><span class=" +:+ dq +:+ "badge bg-secondary" +:+ dq +:+ ">")]
  ++ [Data (chargerType charger)]
  ++ [Lit ("</span></td>
                                <td>")]
  ++ [Data (pretty (availableSlots charger))]
  ++ [Lit ("/")]
  ++ [Data (pretty (totalSlots charger))]
  ++ [Lit ("</td>
                            <td><strong>")]
  ++ [Data (pretty bookingCount)]
  ++ [Lit ("</strong></td>
                                <td>
                                    <button class=" +:+ dq +:+ "btn btn-sm btn-warning" +:+ dq +:+ " onclick=" +:+ dq +:+ "openEditModal('")]
  ++ [Data (_id charger)]
  ++ [Lit ("', '")]
  ++ [User Name (name charger) (name charger)]
  ++ [Lit ("', '")]
  ++ [User Description (default "" (description charger)) (replace_char "039" "&apos;" (default "" (description charger)))]
  ++ [Lit ("', ")]
  ++ [Data (pretty (totalSlots charger))]
  ++ [Lit (")" +:+ dq +:+ ">Edit</button>
                                    <button class=" +:+ dq +:+ "btn btn-sm btn-danger" +:+ dq +:+ " onclick=" +:+ dq +:+ "deleteCharger('")]
  ++ [Data (_id charger)]
  ++ [Lit ("')" +:+ dq +:+ ">Delete</button>
                                </td>
                        </tr>
                    ")].

(** The row of the [catch] branch: a dash in the bookings cell. *)
Definition row_without_count (charger : Charger) : list piece :=
  [Lit ("
                        <tr>
                            <td>
                                <strong>")]
  ++ [User Name (name charger) (name charger)]
  ++ [Lit ("</strong>
                                <br>
                                <small class=" +:+ dq +:+ "text-muted" +:+ dq +:+ ">")]
  ++ [User Address (default "undefined" (address charger)) (default "undefined" (address charger))]
  ++ [Lit ("</small>
                            </td>
                            <td><span class=" +:+ dq +:+ "badge bg-secondary" +:+ dq +:+ ">")]
  ++ [Data (chargerType charger)]
  ++ [Lit ("</span></td>
                            <td>")]
  ++ [Data (pretty (availableSlots charger))]
  ++ [Lit ("/")]
  ++ [Data (pretty (totalSlots charger))]
  ++ [Lit ("</td>
                            <td><span class=" +:+ dq +:+ "text-muted" +:+ dq +:+ ">-</span></td>
                            <td>
                                <button class=" +:+ dq +:+ "btn btn-sm btn-warning" +:+ dq +:+ " onclick=" +:+ dq +:+ "openEditModal('")]
  ++ [Data (_id charger)]
  ++ [Lit ("', '")]
  ++ [User Name (name charger) (name charger)]
  ++ [Lit ("', '")]
  ++ [User Description (default "" (description charger)) (replace_char "039" "&apos;" (default "" (description charger)))]
  ++ [Lit ("', ")]
  ++ [Data (pretty (totalSlots charger))]
  ++ [Lit (")" +:+ dq +:+ ">Edit</button>
                                <button class=" +:+ dq +:+ "btn btn-sm btn-danger" +:+ dq +:+ " onclick=" +:+ dq +:+ "deleteCharger('")]
  ++ [Data (_id charger)]
  ++ [Lit ("')" +:+ dq +:+ ">Delete</button>
                            </td>
                        </tr>
                    ")].

Section Dashboard.
Context `{Browser}.

(** [Array.isArray(bookings) ? bookings.filter(...).length : 0] *)
Definition bookingCount (bookings : json) : M nat :=
  match bookings with
  | JArr items => l ← lift (filter_not_cancelled items); mret (length l)
  | _ => mret 0
  end.

(** An item of the station list, read as a station: the first property
    read of a [null] item throws a TypeError. *)
Definition read_station (first : string) (item : json) : M Charger :=
  lift (prop (Some item) first) ;; mret (station_of_json item).

(** The body of the loop of [loadOwnerStations]; the [catch] branch reads
    the item again. *)
Definition add_row (item : json) (html : list piece) : M (list piece) :=
  try_catch
    (charger ← read_station "_id" item;
     bookings ← API.getChargerBookings (_id charger);
     n ← bookingCount bookings;
     mret (html ++ row charger n))
    (λ err, charger ← read_station "_id" item; mret (html ++ row_without_count charger)).

(** [ownerChargers.length === 0] *)
Definition ownerChargers_length_is_zero : M bool :=
  match ownerChargers_is_empty with
  | Some b => mret b
  | None => throw (Exn "ReferenceError" "ownerChargers is not defined")
  end.

Definition loadOwnerStations : M () :=
  try_catch
    (data ← API.getOwnerChargers;
     let stations := match data with
                     | JArr items => items
                     | _ => []
                     end in
     (λ p, (Ok (), with_ownerStations stations p)) ;;
     ownerChargers_length_is_zero ≫= λ empty : bool,
     html ← (if empty then mret no_stations
             else rows ← for_each add_row stations table_head;
                  mret (render (rows ++ table_foot)));
     set_content "myChargersList" html)
    (λ err, set_content "myChargersList" could_not_load).

(** The body of the first loop of [loadRecentBookings]; the [catch]
    branch reads the item again for its warning. *)
Definition collect (item : json) (all : list (json * string)) : M (list (json * string)) :=
  try_catch
    (charger ← read_station "_id" item;
     bookings ← API.getChargerBookings (_id charger);
     match bookings with
     | JArr items => mret (all ++ ((λ b, (b, name charger)) <$> items))
     | _ => mret all
     end)
    (λ err, read_station "_id" item ;; mret all).

Definition loadRecentBookings : M () :=
  try_catch
    (stations ← (λ p, (Ok (ownerStations p), p));
     all ← for_each collect stations [];
     html ← lift (recent_bookings_html all);
     set_content "recentBookings" html)
    (λ err, set_content "recentBookings" no_bookings).

(** The body of the loop of [loadStatistics].  The item is read before
    the [try], for the sum [totalAvailableSlots] that the loop also keeps
    and that is never read. *)
Definition count_bookings (item : json) (totalBookings : nat) : M nat :=
  charger ← read_station "availableSlots" item;
  try_catch
    (bookings ← API.getChargerBookings (_id charger);
     n ← bookingCount bookings;
     mret (totalBookings + n))
    (λ err, mret totalBookings).

(** [ownerStations.reduce((sum, c) => sum + (c.totalSlots - c.availableSlots), 0)] *)
Definition slotsInUse (stations : list json) : M Z :=
  for_each (λ item sum, c ← read_station "totalSlots" item;
                        mret (sum + (totalSlots c - availableSlots c))%Z)
    stations 0%Z.

Definition loadStatistics : M () :=
  try_catch
    (stations ← (λ p, (Ok (ownerStations p), p));
     totalBookings ← for_each count_bookings stations 0;
     totalSlotsInUse ← slotsInUse stations;
     set_content "totalStations" (pretty (length stations)) ;;
     set_content "totalBookings" (pretty totalBookings) ;;
     set_content "totalSlots" (pretty totalSlotsInUse) ;;
     loadRecentBookings)
    (λ err,
     set_content "totalStations" "0" ;;
     set_content "totalBookings" "0" ;;
     set_content "totalSlots" "0").

(** [deleteCharger(id)]; [confirmed] is the answer to the [confirm]
    dialog. *)
Definition deleteCharger (confirmed : bool) (id : string) : M () :=
  if negb confirmed then mret ()
  else
    try_catch
      (result ← API.deleteCharger id;
       error ← lift (prop (Some result) "error");
       if negb (truthy error)
       then alert "Station deleted" ;; loadOwnerStations ;; loadStatistics
       else throw (Exn "Error" (Auth.display (or_else error (Some (JStr "Unknown error"))))))
      (λ err,
       alert ("Failed to delete station: "
              +:+ (if String.eqb (message err) "" then "Please try again" else message err))).

End Dashboard.
End Owner.

(** ** Sample stations, pages and browsers *)

Module Sample.
Import JS.

Definition aborted : exn := Exn "AbortError" "The operation was aborted.".

Definition unreachable : exn := Exn "TypeError" "Failed to fetch".

(** Readers of the fields of a station record. *)
Definition text_of (v : value) : string :=
  match v with
  | Some (JStr s) => s
  | _ => ""
  end.

Definition int_of (v : value) : Z :=
  match v with
  | Some (JNum m _) => m
  | _ => 0%Z
  end.

Definition text_field (v : value) : option string :=
  match v with
  | Some (JStr s) => Some s
  | _ => None
  end.

Definition station (j : json) : Charger :=
  {| _id := text_of (opt_prop (Some j) "_id");
     name := text_of (opt_prop (Some j) "name");
     address := text_field (opt_prop (Some j) "address");
     latitude := Dec 0 0;
     longitude := Dec 0 0;
     chargerType := text_of (opt_prop (Some j) "chargerType");
     totalSlots := int_of (opt_prop (Some j) "totalSlots");
     availableSlots := int_of (opt_prop (Some j) "availableSlots");
     rating := None;
     description := text_field (opt_prop (Some j) "description") |}.

(** A decimal number in digits. *)
Definition show_decimal (d : decimal) : string :=
  let m := Z.abs (digits d) in
  let unit := (10 ^ Z.of_nat (scale d))%Z in
  let frac := pretty (m `mod` unit)%Z in
  (if (digits d <? 0)%Z then "-" else "")
  +:+ pretty (m `div` unit)%Z
  +:+ (if scale d is 0 then ""
       else "." +:+ String.concat "" (replicate (scale d - String.length frac) "0") +:+ frac).

(** A JSON string literal: the text between double quotes, its double
    quotes and backslashes escaped by a backslash. *)
Definition literal (s : string) : string :=
  dq +:+ replace_char "034" (String "092"%char dq) (replace_char "092" "\\" s) +:+ dq.

Definition member (k v : string) : string := literal k +:+ ":" +:+ v.

(** [JSON.stringify] of a station record: the fields it holds, in order. *)
Definition stringify (c : Charger) : string :=
  "{" +:+ String.concat ","
    ([member "_id" (literal (_id c)); member "name" (literal (name c))]
     ++ (if address c is Some a then [member "address" (literal a)] else [])
     ++ [member "latitude" (show_decimal (latitude c));
         member "longitude" (show_decimal (longitude c));
         member "chargerType" (literal (chargerType c));
         member "totalSlots" (pretty (totalSlots c));
         member "availableSlots" (pretty (availableSlots c))]
     ++ (if rating c is Some r then [member "rating" (show_decimal r)] else [])
     ++ (if description c is Some d then [member "description" (literal d)] else []))
  +:+ "}".

(** A browser over a given network. *)
Definition browser (net : Request → Transport) (bound : option bool) : Browser :=
  {| network := net;
     timer_first := true;
     abort_error := aborted;
     ToString := λ j, text_of (Some j);
     JSON_stringify := λ j, "{}";
     stringify_station := stringify;
     toFixed := λ d n, pretty (digits d);
     station_of_json := station;
     ownerChargers_is_empty := bound;
     recent_bookings_html := λ l, inr "" |}.

(** A page with a stored session and the elements the scripts write to. *)
Definition page : Page :=
  {| localStorage := <["token" := "t0"]> (<["user" := "{}"]> ∅);
     dom := list_to_map
              ((λ id : string, (id, ""))
                 <$> ["chargersList"; "chargerModalTitle"; "chargerModalBody";
                      "bookChargerBtn"; "myChargersList"; "totalStations";
                      "totalBookings"; "totalSlots"; "recentBookings"]);
     href := "/public/index.html";
     reloads := 0;
     alerts := [];
     chargers := [];
     selectedCharger := None;
     ownerStations := [] |}.

(** A successful answer after 120 milliseconds. *)
Definition ok (j : json) : Transport := Responds 120 {| status := 200; body := BodyJson j |}.

(** The three demo stations as the owner list, and their bookings: the
    fetch for the second one fails. *)
Definition owner_network (r : Request) : Transport :=
  if String.eqb (req_url r) "/api/chargers/owner/list" then ok API.DEMO_CHARGERS
  else if String.eqb (req_url r) "/api/bookings/charger/demo-1" then
    ok (JArr [JObj [("status", JStr "active")]; JObj [("status", JStr "cancelled")];
              JObj [("status", JStr "completed")]])
  else if String.eqb (req_url r) "/api/bookings/charger/demo-3" then
    ok (JArr [JObj [("status", JStr "active")]])
  else Fails 30 unreachable.

(** The second demo station. *)
Definition tower_bridge : Charger :=
  {| _id := "demo-2"; name := "Tower Bridge Plaza";
     address := Some "Tower Bridge, London SE1 2UP";
     latitude := Dec 515055 4; longitude := Dec (-754) 4;
     chargerType := "Level 2"; totalSlots := 6; availableSlots := 2;
     rating := Some (Dec 45 1); description := None |}.

Definition demo_items : list json :=
  match API.DEMO_CHARGERS with
  | JArr items => items
  | _ => []
  end.

Definition demo_stations : list Charger := station <$> demo_items.

(** Networks that answer every request the same way. *)
Definition server_error : json := JObj [("message", JStr "Server error")].

Definition failing (r : Request) : Transport :=
  Responds 50 {| status := 500; body := BodyJson server_error |}.

Definition offline (r : Request) : Transport := Fails 30 unreachable.

Definition garbled (r : Request) : Transport :=
  Responds 50 {| status := 502;
                 body := BodyFails (Exn "SyntaxError" "Unexpected token < in JSON") |}.

Definition unauthorized (r : Request) : Transport :=
  Responds 80 {| status := 401; body := BodyJson (JObj [("message", JStr "Invalid token")]) |}.

Definition silent (r : Request) : Transport := Silent.

Definition null_body (r : Request) : Transport := ok JNull.

(** A server that accepts every login as the owner [Ada]. *)
Definition owner_payload : json :=
  JObj [("token", JStr "abc");
        ("user", JObj [("name", JStr "Ada"); ("role", JStr "owner")]);
        ("message", JStr "Login successful")].

Definition accepting (r : Request) : Transport := ok owner_payload.

(** Stations whose text fields hold markup characters. *)
Definition quoted : Charger :=
  {| _id := "s1"; name := String "034"%char "Plaza" +:+ String "034"%char "";
     address := None; latitude := Dec 0 0; longitude := Dec 0 0;
     chargerType := "Level 2"; totalSlots := 4; availableSlots := 1;
     rating := None; description := None |}.

Definition scripted : Charger :=
  {| _id := "s2"; name := "<script>alert(1)</script>";
     address := Some "1 <b>High</b> Street & Co"; latitude := Dec 0 0; longitude := Dec 0 0;
     chargerType := "DC Fast"; totalSlots := 2; availableSlots := 2;
     rating := None; description := Some "<img src=x>" |}.

(** A page listing twelve stations. *)
Definition listing : Page :=
  {| localStorage := ∅; dom := dom page; href := href page; reloads := 0;
     alerts := []; chargers := replicate 12 tower_bridge;
     selectedCharger := None; ownerStations := [] |}.

(** The owner's page once the three demo stations are loaded. *)
Definition owner_page : Page :=
  {| localStorage := localStorage page; dom := dom page; href := "/public/owner.html";
     reloads := 0; alerts := []; chargers := [];
     selectedCharger := None; ownerStations := demo_items |}.

(** A server that lists one station. *)
Definition kings_cross : json :=
  JObj [("_id", JStr "c1"); ("name", JStr "Kings Cross");
        ("chargerType", JStr "DC Fast"); ("totalSlots", JNum 10 0);
        ("availableSlots", JNum 3 0)].

Definition one_station : json := JArr [kings_cross].

Definition listed (r : Request) : Transport := ok one_station.

(** A server that issues a token and forgets the user. *)
Definition token_only : json := JObj [("token", JStr "abc")].

Definition forgetful (r : Request) : Transport := ok token_only.

(** A station whose description holds an apostrophe. *)
Definition joes : Charger :=
  {| _id := "s3"; name := "Joe"; address := None;
     latitude := Dec 0 0; longitude := Dec 0 0;
     chargerType := "Level 2"; totalSlots := 2; availableSlots := 0;
     rating := None; description := Some "Joe's garage" |}.

(** A page that lists four stations. *)
Definition crowded : Page :=
  {| localStorage := ∅; dom := dom page; href := href page; reloads := 0;
     alerts := []; chargers := [tower_bridge; joes; scripted; quoted];
     selectedCharger := None; ownerStations := [] |}.

(** A parser that knows the stored sample users. *)
Definition parser : Parser :=
  {| JSON_parse := λ s,
       if String.eqb s "{}" then inr (JObj [])
       else if String.eqb s "user" then inr (JObj [("role", JStr "user")])
       else inl (Exn "SyntaxError" "Unexpected token") |}.

(** The sample page with a stored user of role [user]. *)
Definition driver_page : Page :=
  {| localStorage := <["user" := "user"]> (localStorage page); dom := dom page;
     href := href page; reloads := 0; alerts := []; chargers := [];
     selectedCharger := None; ownerStations := [] |}.

(** A page without any element. *)
Definition bare : Page :=
  {| localStorage := ∅; dom := ∅; href := href page; reloads := 0;
     alerts := []; chargers := [tower_bridge];
     selectedCharger := None; ownerStations := [] |}.

(** The sample page with a leaderboard container. *)
Definition board_page : Page :=
  {| localStorage := ∅; dom := <["leaderboard" := ""]> (dom page); href := href page;
     reloads := 0; alerts := []; chargers := [];
     selectedCharger := None; ownerStations := [] |}.

(** A server whose leaderboard holds a [null] entry. *)
Definition holed (r : Request) : Transport :=
  ok (JArr [JObj [("name", JStr "Ada")]; JNull]).


(** A server that sends the headers of every response and never the
    body. *)
Definition stalling (r : Request) : Transport :=
  Responds 120 {| status := 200; body := BodyStalls |}.

(** Servers that answer after seven and after twelve seconds. *)
Definition slow (r : Request) : Transport :=
  Responds 7000 {| status := 200; body := BodyJson server_error |}.

Definition late (r : Request) : Transport :=
  Responds 12000 {| status := 200; body := BodyJson server_error |}.





(** A server with one leader whose score is text with markup. *)
Definition marked_leader : json :=
  JArr [JObj [("name", JStr "<b>Ada</b>"); ("greenScore", JStr "<i>10</i>");
              ("totalChargingTime", JStr "1.5")]].

Definition marking (r : Request) : Transport := ok marked_leader.


End Sample.

(** ** Vocabulary of the properties *)

(** What the transport hands to [request] before the abort timer of
    [ms] milliseconds fires. *)
Inductive delivery :=
| Delivered (r : Response)
| Rejected (e : JS.exn).

Definition delivery_of `{Browser} (ms : N) (tr : Transport) : delivery :=
  match tr with
  | Responds t r => if API.before_abort ms t then Delivered r else Rejected abort_error
  | Fails t e => if API.before_abort ms t then Rejected e else Rejected abort_error
  | Silent => Rejected abort_error
  end.

(** The session is cleared and the page reloaded. *)
Definition logged_out (p : Page) : Page :=
  with_reload (with_localStorage (delete "user") (with_localStorage (delete "token") p)).

(** The fetch has not settled after [ms] milliseconds: neither a
    response (its headers) nor a network error has arrived by then. *)
Definition fetch_unsettled_after (ms : N) (tr : Transport) : Prop :=
  match tr with
  | Responds t _ | Fails t _ => (ms < t)%N
  | Silent => True
  end.

(** The spec's non-success outcomes: a network error, a timeout, or a
    status outside 200..299. *)
Definition non_success `{Browser} (tr : Transport) : Prop :=
  match delivery_of API.TIMEOUT_MS tr with
  | Delivered r => ¬ (200 ≤ status r < 300)%Z
  | Rejected _ => True
  end.

(** The transport result carries a (truthy) [error] or [offline] field. *)
Definition reports_failure (result : JS.json) : bool :=
  JS.truthy (JS.opt_prop (Some result) "error")
  || JS.truthy (JS.opt_prop (Some result) "offline").

(** The role of the user in a login payload. *)
Definition payload_role (result : JS.json) : JS.value :=
  JS.opt_prop (JS.opt_prop (Some result) "user") "role".



(** The station record of a piece is the serialised record of [c] with
    its double quotes replaced by the entity, and nothing else changed. *)
Definition record_replaced `{Browser} (c : Charger) (p : piece) : Prop :=
  match p with
  | Station c' shown =>
      c' = c ∧ shown = replace_char "034" "&quot;" (stringify_station c)
  | _ => True
  end.

(** A substitution of user-supplied text is written through [escapeHtml]. *)
Definition text_escaped (p : piece) : Prop :=
  match p with
  | User _ raw shown => shown = MapView.escapeHtml raw
  | _ => True
  end.

Fixpoint occurs (c : ascii) (s : string) : bool :=
  match s with
  | EmptyString => false
  | String x rest => Ascii.eqb x c || occurs c rest
  end.



(** Every response body arrives or fails: none stays pending for ever. *)
Definition bodies_arrive `{Browser} : Prop :=
  ∀ req t r, network req = Responds t r → body r ≠ BodyStalls.




(** Reading back the text that [escapeHtml] wrote: each of its four
    entities stands for the characters it replaced; [skip] characters of
    an entity are still to be passed over. *)
Fixpoint unescape_from (skip : nat) (s : string) : string :=
  match s with
  | EmptyString => EmptyString
  | String c rest =>
      match skip with
      | S k => unescape_from k rest
      | 0 =>
          if starts_with "&amp;" s then String "&" (unescape_from 4 rest)
          else if starts_with "&lt;" s then String "<" (unescape_from 3 rest)
          else if starts_with "&gt;" s then String ">" (unescape_from 3 rest)
          else if starts_with "&nbsp;" s
               then String "194" (String "160" (unescape_from 5 rest))
               else String c (unescape_from 0 rest)
      end
  end.

(** The serialised station record of a piece holds no double quote. *)
Definition record_quote_free (p : piece) : Prop :=
  match p with
  | Station _ shown => occurs "034" shown = false
  | _ => True
  end.

(** The description written by a piece holds no apostrophe. *)
Definition description_apostrophe_free (p : piece) : Prop :=
  match p with
  | User Description _ shown => occurs "039" shown = false
  | _ => True
  end.

(** A piece that writes user-supplied text. *)
Definition is_user_text (p : piece) : bool :=
  match p with
  | User _ _ _ => true
  | _ => false
  end.

(** The substitutions of a template, without its literal chunks. *)
Definition substitutions (ps : list piece) : list piece :=
  List.filter (λ p, match p with Lit _ => false | _ => true end) ps.





(** What a row of the leaderboard writes for the leader at index [idx]:
    the rank, the name through [escapeHtml], and the charging time and
    the score as they convert to text. *)
Definition leader_fields `{Browser} (idx : nat) (user : JS.json) : list piece :=
  let name := MapView.text_content (JS.opt_prop (Some user) "name") in
  [Data (MapView.medalIcon idx);
   User Name name (MapView.escapeHtml name);
   Data (Auth.display (JS.opt_prop (Some user) "totalChargingTime"));
   Data (Auth.display (JS.opt_prop (Some user) "greenScore"))].

(** A script step only adds alerts: those shown before it are still the
    first ones after it. *)
Definition adds_alerts {A : Type} (m : M A) : Prop :=
  ∀ p, alerts p `prefix_of` alerts (m p).2.

(** A table row of a station: the counted row or the row with the dash. *)
Definition row_of (c : Charger) (r : list piece) : Prop :=
  r = Owner.row_without_count c ∨ ∃ n, r = Owner.row c n.

(** * Properties *)

(** ** The double product and its ceiling *)

Section FloatFacts.
Local Open Scope Z_scope.
Import Float.

Lemma round_nearest_even_bounds p k :
  0 < k -> 0 <= p ->
  let q := round_nearest_even p k in
  2 * (q * 2 ^ k) <= 2 * p + 2 ^ k /\ 2 * p <= 2 * (q * 2 ^ k) + 2 ^ k.
Proof.
  intros Hk Hp. unfold round_nearest_even.
  assert (HK : 2 ^ k = 2 * 2 ^ (k - 1)).
  { replace k with (Z.succ (k - 1)) at 1 by lia. rewrite Z.pow_succ_r; lia. }
  assert (Hh : 0 < 2 ^ (k - 1)) by (apply Z.pow_pos_nonneg; lia).
  pose proof (Z.div_mod p (2 ^ k) ltac:(lia)) as Hdm.
  pose proof (Z.mod_pos_bound p (2 ^ k) ltac:(lia)) as Hr.
  set (q := p / 2 ^ k) in *. set (r := p mod 2 ^ k) in *.
  set (h := 2 ^ (k - 1)) in *.
  destruct ((h <? r) || ((r =? h) && Z.odd q)) eqn:Hc; cbv zeta.
  - assert (h <= r).
    { apply orb_true_iff in Hc as [Hc|Hc]; [lia|].
      apply andb_true_iff in Hc as [Hc _]. lia. }
    nia.
  - apply orb_false_iff in Hc as [Hc _]. nia.
Qed.

Lemma three_tenths_mantissa : 10 * mant three_tenths = 3 * 2 ^ 54 - 2.
Proof. reflexivity. Qed.

(** Up to [2^50] the double computation [Math.ceil(n * 0.3)] returns the
    ceiling of the real number [3n/10]. *)
Lemma ceil_mul_three_tenths n :
  0 <= n <= 2 ^ 50 -> ceil (mul_int n three_tenths) = ceil_three_tenths n.
Proof.
  intros [H0 Hn]. unfold mul_int, three_tenths. cbn [mant expo].
  destruct (Z.eqb_spec (n * 5404319552844595) 0) as [Hz|Hz].
  { assert (n = 0) by lia. subst. reflexivity. }
  destruct (Z.ltb_spec 0 (n * 5404319552844595)) as [Hp|]; [|lia].
  unfold round_pos, prec.
  pose proof (Z.log2_spec _ Hp) as [Hlo Hhi].
  assert (HL : Z.log2 (n * 5404319552844595) < 103).
  { apply Z.log2_lt_pow2; lia. }
  pose proof (Z.log2_nonneg (n * 5404319552844595)) as HL0.
  set (L := Z.log2 (n * 5404319552844595)) in *.
  destruct (Z.leb_spec (L + 1 - 53) 0) as [Hk|Hk].
  - assert (2 ^ Z.succ L <= 2 ^ 53) by (apply Z.pow_le_mono_r; lia).
    assert (n = 1) by lia. subst n. reflexivity.
  - set (k := L + 1 - 53) in *.
    pose proof (round_nearest_even_bounds (n * 5404319552844595) k
                  ltac:(lia) ltac:(lia)) as [Hup Hdown].
    cbv zeta in Hup, Hdown.
    set (q := round_nearest_even (n * 5404319552844595) k) in *.
    unfold ceil, ceil_three_tenths. cbn [mant expo].
    destruct (Z.leb_spec 0 (-54 + k)) as [|_]; [lia|].
    replace (- (-54 + k)) with (54 - k) by lia.
    assert (HKE : 2 ^ k * 2 ^ (54 - k) = 2 ^ 54).
    { rewrite <- Z.pow_add_r by lia. f_equal. lia. }
    assert (HK52 : 2 ^ k * 2 ^ 52 = 2 ^ L).
    { rewrite <- Z.pow_add_r by lia. f_equal. lia. }
    assert (HK : 0 < 2 ^ k) by (apply Z.pow_pos_nonneg; lia).
    assert (HE : 0 < 2 ^ (54 - k)) by (apply Z.pow_pos_nonneg; lia).
    set (K := 2 ^ k) in *. set (E := 2 ^ (54 - k)) in *.
    pose proof (Z.div_mod (3 * n + 9) 10 ltac:(lia)) as Hc.
    pose proof (Z.mod_pos_bound (3 * n + 9) 10 ltac:(lia)) as Hj.
    set (c := (3 * n + 9) / 10) in *.
    assert (Hhigh : q <= c * E).
    { apply Z.nlt_ge. intros Hgt.
      assert (c * (K * E) + K <= q * K) by nia.
      rewrite HKE in *. lia. }
    assert (Hlow : (c - 1) * E < q).
    { apply Z.nle_gt. intros Hle.
      assert (q * K <= (c - 1) * (K * E)) by nia.
      rewrite HKE in *. lia. }
    assert (Hq : - q / E = - c).
    { symmetry. apply (Z.div_unique _ _ _ (c * E - q)); [left|]; lia. }
    rewrite Hq. lia.
Qed.

End FloatFacts.

(** ** Status classification *)

Section StatusProps.
Local Open Scope Z_scope.
Import MapView.

(** The three demo stations: 6 of 8, 2 of 6 and 1 of 4 slots free. *)
Example demo_statuses :
  getChargerStatus <$> Sample.demo_stations = [available; available; limited].
Proof. reflexivity. Qed.

Lemma getChargerStatus_cases (c : Charger) :
  getChargerStatus c =
    if availableSlots c =? 0 then busy
    else if availableSlots c <? Float.ceil (Float.mul_int (totalSlots c) Float.three_tenths)
         then limited else available.
Proof. reflexivity. Qed.

(** C1. [getChargerStatus] is a total function of the two slot counts.  For
    non-negative counts it answers [busy] exactly when no slot is
    available, [limited] exactly when the available count is positive and
    below [Math.ceil(totalSlots * 0.3)], and [available] in the remaining
    case; the threshold, computed in double arithmetic, is the ceiling of
    the real number [3 * totalSlots / 10] (for every count up to [2^50]),
    and it is [0] for [totalSlots = 0], where every positive available
    count is [available]. *)
Theorem getChargerStatus_classifies (c : Charger) :
  0 ≤ availableSlots c → 0 ≤ totalSlots c →
  let threshold := Float.ceil (Float.mul_int (totalSlots c) Float.three_tenths) in
  (getChargerStatus c = busy ↔ availableSlots c = 0)
  ∧ (getChargerStatus c = limited ↔ 0 < availableSlots c < threshold)
  ∧ (getChargerStatus c = available ↔ 0 < availableSlots c ∧ threshold ≤ availableSlots c)
  ∧ (totalSlots c ≤ 2 ^ 50 → threshold = Float.ceil_three_tenths (totalSlots c))
  ∧ (totalSlots c = 0 →
     threshold = 0 ∧ (0 < availableSlots c → getChargerStatus c = available)).
Proof.
  intros Ha Ht threshold. rewrite getChargerStatus_cases. fold threshold.
  assert (Hzero : totalSlots c = 0 → threshold = 0).
  { intros E. unfold threshold. rewrite E. reflexivity. }
  assert (Hreal : totalSlots c ≤ 2 ^ 50 →
                  threshold = Float.ceil_three_tenths (totalSlots c)).
  { intros Hb. apply ceil_mul_three_tenths. lia. }
  destruct (Z.eqb_spec (availableSlots c) 0) as [E0|N0];
    [|destruct (Z.ltb_spec (availableSlots c) threshold) as [Hlt|Hge]].
  - split; [tauto|]. split; [split; [discriminate|lia]|].
    split; [split; [discriminate|lia]|]. split; [exact Hreal|].
    intros E. split; [auto|lia].
  - split; [split; [discriminate|lia]|]. split; [split; [lia|reflexivity]|].
    split; [split; [discriminate|lia]|]. split; [exact Hreal|].
    intros E. specialize (Hzero E). lia.
  - split; [split; [discriminate|lia]|]. split; [split; [discriminate|lia]|].
    split; [split; [lia|reflexivity]|]. split; [exact Hreal|].
    intros E. split; [auto|reflexivity].
Qed.

Lemma getChargerStatus_classifies_witness :
  (0 ≤ availableSlots Sample.tower_bridge ∧ 0 ≤ totalSlots Sample.tower_bridge)
  ∧ (getChargerStatus Sample.tower_bridge = available
     ↔ 0 < availableSlots Sample.tower_bridge ∧ 2 ≤ availableSlots Sample.tower_bridge).
Proof.
  split; [cbn; lia|].
  exact (proj1 (proj2 (proj2
    (getChargerStatus_classifies Sample.tower_bridge ltac:(cbn; lia) ltac:(cbn; lia))))).
Defined.

End StatusProps.

(** ** The API client *)

Section ClientProps.
Context `{Browser}.
Import JS.

Lemma request_run (p : Page) (method endpoint : string) (data : option json) :
  API.request method endpoint data p =
    match delivery_of API.TIMEOUT_MS
            (network (API.options_for (localStorage p !! "token") method endpoint data)) with
    | Rejected err => (Ok (API.offline_error (message err)), p)
    | Delivered r =>
        let p' := if (status r =? 401)%Z then logged_out p else p in
        match body r with
        | BodyJson j => (Ok j, p')
        | BodyFails err => (Ok (API.offline_error (message err)), p')
        | BodyStalls => (Hang, p')
        end
    end.
Proof.
  unfold API.request, delivery_of, API.fetch_with_abort, API.response_json,
    try_catch, mbind, M_bind, getItem, mret, M_ret, throw.
  destruct (network _) as [t r|t e|]; try reflexivity.
  - destruct (API.before_abort _ t); [|reflexivity].
    destruct (status r =? 401)%Z; destruct (body r); reflexivity.
  - destruct (API.before_abort _ t); reflexivity.
Qed.

(** [request] never throws. *)
Lemma request_no_throw (p : Page) (method endpoint : string) (data : option json) (e : exn) :
  (API.request method endpoint data p).1 ≠ Throw e.
Proof.
  rewrite request_run. destruct (delivery_of _ _) as [r|err]; [|discriminate].
  destruct (body r); discriminate.
Qed.

Lemma unresolved_is_aborted (tr : Transport) :
  fetch_unsettled_after API.TIMEOUT_MS tr →
  delivery_of API.TIMEOUT_MS tr = Rejected abort_error.
Proof.
  unfold fetch_unsettled_after, delivery_of, API.before_abort.
  destruct tr as [t r|t e|]; [| |reflexivity]; intros Ht.
  - destruct (N.ltb_spec t API.TIMEOUT_MS); [lia|].
    destruct (N.eqb_spec t API.TIMEOUT_MS); [lia|]. reflexivity.
  - destruct (N.ltb_spec t API.TIMEOUT_MS); [lia|].
    destruct (N.eqb_spec t API.TIMEOUT_MS); [lia|]. reflexivity.
Qed.

End ClientProps.

Section ClientClaims.
Context `{Browser}.
Import JS.

(** C3, as amended.  [request] never throws.  A network error and a
    timeout (the fetch rejected or aborted), and a response whose body
    cannot be decoded, are returned as [{ error: err.message, offline: true }];
    a response that arrives in time with a decodable body is returned as
    that body, whatever its status. *)
Theorem request_failure_shape (p : Page) (method endpoint : string) (data : option json) :
  let tr := network (API.options_for (localStorage p !! "token") method endpoint data) in
  let result := (API.request method endpoint data p).1 in
  (∀ e, result ≠ Throw e)
  ∧ (∀ err, delivery_of API.TIMEOUT_MS tr = Rejected err →
       result = Ok (API.offline_error (message err)))
  ∧ (∀ r err, delivery_of API.TIMEOUT_MS tr = Delivered r → body r = BodyFails err →
       result = Ok (API.offline_error (message err)))
  ∧ (∀ r j, delivery_of API.TIMEOUT_MS tr = Delivered r → body r = BodyJson j →
       result = Ok j).
Proof.
  intros tr result. split; [intros e; apply request_no_throw|].
  unfold result. rewrite request_run. fold tr.
  split; [|split].
  - intros err ->. reflexivity.
  - intros r err -> ->. reflexivity.
  - intros r j -> ->. reflexivity.
Qed.

(** C5.  A 401 response that [request] receives removes the [token] and
    the [user] keys from local storage and reloads the page exactly
    once. *)
Theorem request_401_logs_out (p : Page) (method endpoint : string) (data : option json)
    (r : Response) :
  delivery_of API.TIMEOUT_MS
    (network (API.options_for (localStorage p !! "token") method endpoint data))
    = Delivered r →
  status r = 401%Z →
  let p' := (API.request method endpoint data p).2 in
  localStorage p' = delete "user" (delete "token" (localStorage p))
  ∧ localStorage p' !! "token" = None
  ∧ localStorage p' !! "user" = None
  ∧ reloads p' = S (reloads p).
Proof.
  intros Hd Hs p'. unfold p'. rewrite request_run, Hd, Hs. cbn zeta.
  change (401 =? 401)%Z with true. cbv iota.
  assert (E : ∀ o : outcome json, (o, logged_out p).2 = logged_out p) by reflexivity.
  destruct (body r); rewrite E; cbn.
  all: split; [reflexivity|]; split; [|split; [|reflexivity]].
  all: try apply lookup_delete_eq.
  all: rewrite lookup_delete_ne by done; apply lookup_delete_eq.
Qed.

(** C6, as amended.  The timeout of a request covers the fetch, that is
    the wait for the response headers, and lasts ten seconds.  A fetch
    that has not settled after 10000 milliseconds is aborted, and the
    call returns the failure shape with the message of the abort, the
    page unchanged.  A fetch that settles before that is not aborted: a
    network error is reported with its own message, and a response is
    handed on, its JSON body being the result.  The timer is cleared
    once the response is there, so that a body which never arrives
    leaves the call pending for ever. *)
Theorem request_times_out (p : Page) (method endpoint : string) (data : option json) :
  let tr := network (API.options_for (localStorage p !! "token") method endpoint data) in
  let run := API.request method endpoint data p in
  (fetch_unsettled_after 10000 tr →
   run = (Ok (API.offline_error (message abort_error)), p))
  ∧ (∀ t e, tr = Fails t e → (t < 10000)%N →
       run = (Ok (API.offline_error (message e)), p))
  ∧ (∀ t r j, tr = Responds t r → (t < 10000)%N → body r = BodyJson j →
       run.1 = Ok j)
  ∧ (∀ t r, tr = Responds t r → (t < 10000)%N → body r = BodyStalls →
       run.1 = Hang).
Proof.
  intros tr run.
  assert (Hin : ∀ t, (t < 10000)%N → API.before_abort API.TIMEOUT_MS t = true).
  { intros t Ht. unfold API.before_abort.
    by destruct (N.ltb_spec t API.TIMEOUT_MS); [|unfold API.TIMEOUT_MS in *; lia]. }
  unfold run. rewrite request_run. fold tr. split; [|split; [|split]].
  - intros Hu. by rewrite (unresolved_is_aborted _ Hu).
  - intros t e -> Ht. unfold delivery_of. by rewrite (Hin t Ht).
  - intros t r j -> Ht Hj. unfold delivery_of. rewrite (Hin t Ht). cbn zeta.
    by rewrite Hj.
  - intros t r -> Ht Hj. unfold delivery_of. rewrite (Hin t Ht). cbn zeta.
    by rewrite Hj.
Qed.

(** The abort timer is cleared once the response is there: a body that
    never arrives leaves the call pending. *)
Lemma request_body_stalls (p : Page) (method endpoint : string) (data : option json)
    (r : Response) :
  delivery_of API.TIMEOUT_MS
    (network (API.options_for (localStorage p !! "token") method endpoint data))
    = Delivered r →
  body r = BodyStalls →
  (API.request method endpoint data p).1 = Hang.
Proof. intros Hd Hb. by rewrite request_run, Hd, Hb. Qed.

(** A response that is not a 401 leaves the session and the page alone. *)
Lemma request_keeps_page (p : Page) (method endpoint : string) (data : option json)
    (r : Response) :
  delivery_of API.TIMEOUT_MS
    (network (API.options_for (localStorage p !! "token") method endpoint data))
    = Delivered r →
  status r ≠ 401%Z →
  (API.request method endpoint data p).2 = p.
Proof.
  intros Hd Hs. rewrite request_run, Hd. cbn zeta.
  destruct (Z.eqb_spec (status r) 401); [done|]. by destruct (body r).
Qed.

End ClientClaims.

(** C3 fails as stated: a 500 response with a JSON body is a non-success
    outcome, and [request] returns the body, not the failure shape. *)
Lemma request_error_status_passes_through :
  let B := Sample.browser Sample.failing None in
  non_success
    (network (API.options_for (localStorage Sample.page !! "token") "GET" "/chargers" None))
  ∧ (API.request "GET" "/chargers" None Sample.page).1 = Ok Sample.server_error
  ∧ ∀ msg, Sample.server_error ≠ API.offline_error msg.
Proof.
  intros B. split; [|split].
  - vm_compute. intros [_ Hlt]. discriminate Hlt.
  - reflexivity.
  - intros msg. discriminate.
Qed.

Lemma request_failure_shape_witness :
  (API.request (H := Sample.browser Sample.offline None) "GET" "/chargers" None Sample.page).1
    = Ok (API.offline_error "Failed to fetch")
  ∧ (API.request (H := Sample.browser Sample.garbled None) "GET" "/chargers" None Sample.page).1
    = Ok (API.offline_error "Unexpected token < in JSON")
  ∧ (API.request (H := Sample.browser Sample.failing None) "GET" "/chargers" None Sample.page).1
    = Ok Sample.server_error.
Proof.
  split; [|split].
  - apply (proj1 (proj2 (request_failure_shape (H := Sample.browser Sample.offline None)
                           Sample.page "GET" "/chargers" None)) Sample.unreachable).
    reflexivity.
  - apply (proj1 (proj2 (proj2 (request_failure_shape (H := Sample.browser Sample.garbled None)
                           Sample.page "GET" "/chargers" None)))
             {| status := 502;
                body := BodyFails (JS.Exn "SyntaxError" "Unexpected token < in JSON") |}
             (JS.Exn "SyntaxError" "Unexpected token < in JSON")).
    + reflexivity.
    + reflexivity.
  - apply (proj2 (proj2 (proj2 (request_failure_shape (H := Sample.browser Sample.failing None)
                           Sample.page "GET" "/chargers" None)))
             {| status := 500; body := BodyJson Sample.server_error |}).
    + reflexivity.
    + reflexivity.
Defined.

Lemma request_401_logs_out_witness :
  let B := Sample.browser Sample.unauthorized None in
  let p' := (API.request "GET" "/users/profile" None Sample.page).2 in
  (localStorage Sample.page !! "token" = Some "t0" ∧ localStorage Sample.page !! "user" = Some "{}")
  ∧ localStorage p' !! "token" = None
  ∧ localStorage p' !! "user" = None
  ∧ reloads p' = S (reloads Sample.page).
Proof.
  intros B p'. split; [split; reflexivity|].
  apply (request_401_logs_out (H := B) Sample.page "GET" "/users/profile" None
           {| status := 401;
              body := BodyJson (JS.JObj [("message", JS.JStr "Invalid token")]) |}).
  - reflexivity.
  - reflexivity.
Defined.

(** C6 fails as stated.  A server that sends its headers after 120
    milliseconds and never the body: the request does not resolve, it is
    not aborted, no failure shape is returned, and the caller waits for
    ever. *)
Lemma request_hangs_on_stalled_body :
  let B := Sample.browser Sample.stalling None in
  let run := API.request "GET" "/chargers" None Sample.page in
  network (API.options_for (localStorage Sample.page !! "token") "GET" "/chargers" None)
  = Responds 120 {| status := 200; body := BodyStalls |}
  ∧ run.1 = Hang
  ∧ ∀ result, run.1 ≠ Ok result.
Proof. intros B run. split; [reflexivity|]. split; [reflexivity|]. discriminate. Qed.

Lemma request_times_out_witness :
  (let B := Sample.browser Sample.silent None in
   API.request "GET" "/chargers" None Sample.page
   = (Ok (API.offline_error "The operation was aborted."), Sample.page))
  ∧ (let B := Sample.browser Sample.late None in
     API.request "GET" "/chargers" None Sample.page
     = (Ok (API.offline_error "The operation was aborted."), Sample.page))
  ∧ (let B := Sample.browser Sample.offline None in
     API.request "GET" "/chargers" None Sample.page
     = (Ok (API.offline_error "Failed to fetch"), Sample.page))
  ∧ (let B := Sample.browser Sample.slow None in
     (API.request "GET" "/chargers" None Sample.page).1 = Ok Sample.server_error)
  ∧ (let B := Sample.browser Sample.stalling None in
     (API.request "GET" "/chargers" None Sample.page).1 = Hang).
Proof.
  split; [|split; [|split; [|split]]]; intros B.
  - apply (proj1 (request_times_out (H := B) Sample.page "GET" "/chargers" None)).
    exact I.
  - apply (proj1 (request_times_out (H := B) Sample.page "GET" "/chargers" None)).
    vm_compute. reflexivity.
  - apply (proj1 (proj2 (request_times_out (H := B) Sample.page "GET" "/chargers" None))
             30%N Sample.unreachable eq_refl).
    reflexivity.
  - apply (proj1 (proj2 (proj2 (request_times_out (H := B) Sample.page "GET" "/chargers"
                                  None)))
             7000%N {| status := 200; body := BodyJson Sample.server_error |}
             Sample.server_error eq_refl); reflexivity.
  - apply (proj2 (proj2 (proj2 (request_times_out (H := B) Sample.page "GET" "/chargers"
                                  None)))
             120%N {| status := 200; body := BodyStalls |} eq_refl); reflexivity.
Defined.

(** ** Fallback datasets *)

Section FallbackProps.
Context `{Browser}.
Import JS.

Lemma failed_run (result : json) (p : Page) :
  result ≠ JNull → API.failed result p = (Ok (reports_failure result), p).
Proof.
  intros Hn. unfold API.failed, reports_failure, mbind, M_bind, lift.
  destruct result; try done; cbn.
  destruct (truthy (assoc "error" fields)); reflexivity.
Qed.

Lemma failed_null (p : Page) : ∃ e, API.failed JNull p = (Throw e, p).
Proof. eexists. reflexivity. Qed.

Lemma offline_error_reports_failure (msg : string) :
  reports_failure (API.offline_error msg) = true.
Proof. unfold reports_failure. cbn. apply orb_true_r. Qed.

(** For every transport result other than [null] the station list falls
    back to the demo stations exactly when the result reports a failure,
    and is the result otherwise; the page is as [request] left it. *)
Lemma getAllChargers_fallback (p p' : Page) (result : json) :
  API.request "GET" "/chargers" None p = (Ok result, p') →
  result ≠ JNull →
  API.getAllChargers p
  = (Ok (if reports_failure result then API.DEMO_CHARGERS else result), p').
Proof.
  intros Hr Hn. unfold API.getAllChargers, mbind, M_bind at 1. rewrite Hr.
  unfold M_bind. rewrite (failed_run _ _ Hn). by destruct (reports_failure result).
Qed.

Lemma getLeaderboard_fallback (p p' : Page) (result : json) :
  API.request "GET" "/users/leaderboard" None p = (Ok result, p') →
  result ≠ JNull →
  API.getLeaderboard p
  = (Ok (if reports_failure result then API.DEMO_LEADERBOARD else result), p').
Proof.
  intros Hr Hn. unfold API.getLeaderboard, mbind, M_bind at 1. rewrite Hr.
  unfold M_bind. rewrite (failed_run _ _ Hn). by destruct (reports_failure result).
Qed.

(** Every failure of the transport yields the demo datasets. *)
Lemma transport_failure_gives_demo (p : Page) (err : exn) :
  delivery_of API.TIMEOUT_MS
    (network (API.options_for (localStorage p !! "token") "GET" "/chargers" None))
    = Rejected err →
  API.getAllChargers p = (Ok API.DEMO_CHARGERS, p).
Proof.
  intros Hd.
  rewrite (getAllChargers_fallback p p (API.offline_error (message err))).
  - by rewrite offline_error_reports_failure.
  - by rewrite request_run, Hd.
  - discriminate.
Qed.

(** C4, as amended.  For every transport result other than [null]:
    [getAllChargers] returns exactly [DEMO_CHARGERS], and [getLeaderboard]
    exactly [DEMO_LEADERBOARD], when [result.error || result.offline] is
    truthy, and the transport result itself otherwise; the failure shape
    of [request] always takes the fallback. *)
Theorem fallback_datasets (p p' : Page) (result : json) :
  result ≠ JNull →
  (API.request "GET" "/chargers" None p = (Ok result, p') →
   API.getAllChargers p
   = (Ok (if reports_failure result then API.DEMO_CHARGERS else result), p'))
  ∧ (API.request "GET" "/users/leaderboard" None p = (Ok result, p') →
     API.getLeaderboard p
     = (Ok (if reports_failure result then API.DEMO_LEADERBOARD else result), p'))
  ∧ (∀ msg, reports_failure (API.offline_error msg) = true).
Proof.
  intros Hn. split; [|split].
  - intros Hr. by apply getAllChargers_fallback.
  - intros Hr. by apply getLeaderboard_fallback.
  - apply offline_error_reports_failure.
Qed.

End FallbackProps.

(** C4 fails as stated: when the body of a successful response is the
    JSON literal [null], [request] returns [null], which carries neither
    field, and reading [result.error] throws, so that neither fallback
    endpoint returns the transport result. *)
Lemma fallback_throws_on_null_body :
  let B := Sample.browser Sample.null_body None in
  (API.request "GET" "/chargers" None Sample.page).1 = Ok JS.JNull
  ∧ (API.request "GET" "/users/leaderboard" None Sample.page).1 = Ok JS.JNull
  ∧ reports_failure JS.JNull = false
  ∧ (∃ e, (API.getAllChargers Sample.page).1 = Throw e)
  ∧ (∃ e, (API.getLeaderboard Sample.page).1 = Throw e).
Proof.
  intros B. split; [reflexivity|]. split; [reflexivity|]. split; [reflexivity|].
  split; eexists; reflexivity.
Qed.

Lemma fallback_datasets_witness :
  API.getAllChargers (H := Sample.browser Sample.offline None) Sample.page
    = (Ok API.DEMO_CHARGERS, Sample.page)
  ∧ API.getLeaderboard (H := Sample.browser Sample.offline None) Sample.page
    = (Ok API.DEMO_LEADERBOARD, Sample.page)
  ∧ API.getAllChargers (H := Sample.browser Sample.listed None) Sample.page
    = (Ok Sample.one_station, Sample.page).
Proof.
  split; [|split].
  - apply (proj1 (fallback_datasets (H := Sample.browser Sample.offline None)
                    Sample.page Sample.page (API.offline_error "Failed to fetch")
                    ltac:(discriminate))).
    reflexivity.
  - apply (proj1 (proj2 (fallback_datasets (H := Sample.browser Sample.offline None)
                    Sample.page Sample.page (API.offline_error "Failed to fetch")
                    ltac:(discriminate)))).
    reflexivity.
  - apply (proj1 (fallback_datasets (H := Sample.browser Sample.listed None)
                    Sample.page Sample.page Sample.one_station ltac:(discriminate))).
    reflexivity.
Defined.

(** ** Login *)

Section LoginProps.
Context `{Browser}.
Import JS.

Lemma login_request (email password : string) (p : Page) :
  API.login email password p
  = API.request "POST" "/auth/login"
      (Some (JObj [("email", JStr email); ("password", JStr password)])) p.
Proof. reflexivity. Qed.

Lemma login_role_mismatch_run (p : Page) (email password role : string)
    (r : Response) (j : json) :
  delivery_of API.TIMEOUT_MS
    (network (API.options_for (localStorage p !! "token") "POST" "/auth/login"
                (Some (JObj [("email", JStr email); ("password", JStr password)]))))
    = Delivered r →
  status r ≠ 401%Z →
  body r = BodyJson j →
  truthy (opt_prop (Some j) "token") = true →
  is_string (payload_role j) role = false →
  ∃ msg, Auth.login email password role p = (Ok (), with_alert msg p).
Proof.
  intros Hd Hs Hb Htok Hrole. unfold Auth.login, try_catch.
  unfold mbind at 1. unfold M_bind at 1.
  rewrite login_request, request_run, Hd, Hb. cbn zeta.
  destruct (Z.eqb_spec (status r) 401) as [E|_]; [done|].
  destruct j as [| | | | |fields]; try discriminate Htok.
  cbn in Htok. unfold payload_role in Hrole. cbn in Hrole.
  unfold Auth.no_token, mbind, M_bind, lift. cbn. rewrite Htok. cbn.
  destruct (assoc "user" fields) as [[| | | | |ufields]|] eqn:Hu; cbn in Hrole |- *;
    try rewrite Hrole; cbn; eexists; reflexivity.
Qed.

(** C7.  When the login request is answered in time by a success
    response whose payload holds a token and a user of another role than
    the portal's, [login] returns with local storage, the location and
    the reload count as they were: nothing is persisted and nothing
    redirects. *)
Theorem login_role_mismatch (p : Page) (email password role : string)
    (r : Response) (j : json) :
  delivery_of API.TIMEOUT_MS
    (network (API.options_for (localStorage p !! "token") "POST" "/auth/login"
                (Some (JObj [("email", JStr email); ("password", JStr password)]))))
    = Delivered r →
  (200 ≤ status r < 300)%Z →
  body r = BodyJson j →
  truthy (opt_prop (Some j) "token") = true →
  is_string (payload_role j) role = false →
  let run := Auth.login email password role p in
  run.1 = Ok ()
  ∧ localStorage run.2 = localStorage p
  ∧ href run.2 = href p
  ∧ reloads run.2 = reloads p.
Proof.
  intros Hd Hs Hb Htok Hrole run.
  destruct (login_role_mismatch_run p email password role r j Hd ltac:(lia) Hb Htok Hrole)
    as [msg Hrun].
  unfold run. rewrite Hrun. done.
Qed.

End LoginProps.

Lemma login_role_mismatch_witness :
  let B := Sample.browser Sample.accepting None in
  let run := Auth.login "ada@example.com" "secret" "user" Sample.page in
  run.1 = Ok ()
  ∧ localStorage run.2 = localStorage Sample.page
  ∧ href run.2 = href Sample.page
  ∧ reloads run.2 = reloads Sample.page.
Proof.
  intros B.
  apply (login_role_mismatch (H := B) Sample.page "ada@example.com" "secret" "user"
           {| status := 200; body := BodyJson Sample.owner_payload |} Sample.owner_payload).
  - reflexivity.
  - cbn. lia.
  - reflexivity.
  - reflexivity.
  - reflexivity.
Defined.

(** Through the owner portal the same payload is persisted and the page
    moves to the owner dashboard. *)
Example login_matching_role :
  let B := Sample.browser Sample.accepting None in
  let run := Auth.login "ada@example.com" "secret" "owner" Sample.page in
  run.1 = Ok ()
  ∧ localStorage run.2 !! "token" = Some "abc"
  ∧ href run.2 = "/public/owner.html".
Proof. intros B. vm_compute. done. Qed.

(** ** Escaping of user-supplied text *)

Section EscapeFacts.
Import MapView.





(** The double quote is not among the characters that [escapeHtml]
    replaces. *)
Lemma escapeHtml_keeps_quote : escapeHtml dq = dq.
Proof. reflexivity. Qed.





(** In the [onclick] attribute of a sidebar card the serialised station
    record holds no double quote. *)
Lemma occurs_append (c : ascii) (a b : string) :
  occurs c (a +:+ b) = occurs c a || occurs c b.
Proof.
  induction a as [|x a IH]; [reflexivity|].
  change (String x a +:+ b) with (String x (a +:+ b)).
  cbn [occurs]. by rewrite IH, orb_assoc.
Qed.

Lemma replace_char_removes (c : ascii) (rep s : string) :
  occurs c rep = false → occurs c (replace_char c rep s) = false.
Proof.
  intros Hrep. induction s as [|x s IH]; [reflexivity|].
  cbn [replace_char]. destruct (Ascii.eqb x c) eqn:E.
  - by rewrite occurs_append, Hrep, IH.
  - cbn [occurs]. by rewrite E, IH.
Qed.

End EscapeFacts.

Section MarkupProps.
Context `{Browser}.
Import MapView.

Local Ltac pieces :=
  repeat first
    [ apply Forall_app; split
    | exact I
    | reflexivity
    | constructor ].




Lemma card_record (c : Charger) : Forall (record_replaced c) (card c).
Proof. unfold card. cbv zeta. pieces. Qed.




End MarkupProps.



(** ** The sidebar list *)

Section ListProps.
Context `{Browser}.
Import MapView.










End ListProps.


(** ** Running scripts *)

Section RunFacts.
Context `{Browser}.
Import JS.

Lemma bind_ok {A B : Type} (m : M A) (f : A → M B) (p p' : Page) (a : A) :
  m p = (Ok a, p') → (m ≫= f) p = f a p'.
Proof. intros E. unfold mbind, M_bind. by rewrite E. Qed.

Lemma bind_throw {A B : Type} (m : M A) (f : A → M B) (p p' : Page) (e : exn) :
  m p = (Throw e, p') → (m ≫= f) p = (Throw e, p').
Proof. intros E. unfold mbind, M_bind. by rewrite E. Qed.

Lemma try_catch_ok {A : Type} (m : M A) (h : exn → M A) (p p' : Page) (a : A) :
  m p = (Ok a, p') → try_catch m h p = (Ok a, p').
Proof. intros E. unfold try_catch. by rewrite E. Qed.

Lemma try_catch_throw {A : Type} (m : M A) (h : exn → M A) (p p' : Page) (e : exn) :
  m p = (Throw e, p') → try_catch m h p = h e p'.
Proof. intros E. unfold try_catch. by rewrite E. Qed.

Lemma set_content_ok (id html : string) (p : Page) :
  is_Some (dom p !! id) → set_content id html p = (Ok (), with_dom <[id:=html]> p).
Proof. intros [x Hx]. unfold set_content. by rewrite Hx. Qed.

(** When bodies arrive, a request returns, and it leaves the document and
    the station list as they were. *)
Lemma request_returns (p : Page) (method endpoint : string) (data : option json) :
  bodies_arrive →
  ∃ j p', API.request method endpoint data p = (Ok j, p')
          ∧ dom p' = dom p ∧ ownerStations p' = ownerStations p.
Proof.
  intros Hb. rewrite request_run.
  destruct (delivery_of _ _) as [r|err] eqn:Hd; [|by eexists _, _].
  assert (Hr : body r ≠ BodyStalls).
  { unfold delivery_of in Hd.
    destruct (network _) as [t r'|t e|] eqn:Hn; try discriminate.
    - destruct (API.before_abort _ t); [|discriminate].
      injection Hd as ->. by apply (Hb _ _ _ Hn).
    - by destruct (API.before_abort _ t). }
  cbn zeta. destruct (body r); [| |done];
    eexists _, _; (split; [reflexivity|]); by destruct (status r =? 401)%Z.
Qed.

Lemma null_or_not (item : json) : item = JNull ∨ item ≠ JNull.
Proof. destruct item; by (left + right). Qed.

(** Reading a station of the list: a record (or any value but [null])
    is read, [null] throws. *)
Lemma read_station_record (first : string) (item : json) (p : Page) :
  item ≠ JNull → Owner.read_station first item p = (Ok (station_of_json item), p).
Proof. intros Hi. by destruct item. Qed.


End RunFacts.

(** ** Owner statistics *)

Section StatisticsProps.
Context `{Browser}.
Import JS Owner.




(** An answer that is not an array counts for nothing. *)
Lemma bookingCount_not_array (bookings : json) (p : Page) :
  (∀ items, bookings ≠ JArr items) → bookingCount bookings p = (Ok 0, p).
Proof. intros Hn. destruct bookings; try reflexivity. by destruct (Hn items). Qed.





End StatisticsProps.

Section StatisticsClaim.
Context `{Browser}.
Import JS Owner.



End StatisticsClaim.




(** ** The owner's station table *)

Section TableProps.
Context `{Browser}.
Import JS Owner.

(** A failed booking fetch is an answer that is not an array: the row is
    the one with a count, and the count is zero. *)
Lemma add_row_not_array (item : json) (html : list piece) (p p' : Page) (j : json) :
  item ≠ JNull →
  API.getChargerBookings (_id (station_of_json item)) p = (Ok j, p') →
  (∀ items, j ≠ JArr items) →
  add_row item html p = (Ok (html ++ row (station_of_json item) 0), p').
Proof.
  intros Hi Hr Hj. unfold add_row. erewrite try_catch_ok; [reflexivity|].
  erewrite bind_ok by (by apply read_station_record).
  erewrite bind_ok by exact Hr.
  erewrite bind_ok by (by apply bookingCount_not_array). reflexivity.
Qed.

(** While the page does not bind [ownerChargers], the table is never
    built: the container shows the load error. *)
Lemma loadOwnerStations_unbound (p : Page) :
  ownerChargers_is_empty = None →
  bodies_arrive →
  is_Some (dom p !! "myChargersList") →
  (loadOwnerStations p).1 = Ok ()
  ∧ dom (loadOwnerStations p).2 !! "myChargersList" = Some could_not_load.
Proof.
  intros Hu Hb Hel.
  destruct (request_returns p "GET" "/chargers/owner/list" None Hb)
    as (j & p1 & Hr & Hd & _).
  set (stations := match j with JArr items => items | _ => [] end).
  assert (Hrun : loadOwnerStations p
                 = (Ok (), with_dom <["myChargersList" := could_not_load]>
                             (with_ownerStations stations p1))).
  { unfold loadOwnerStations.
    erewrite try_catch_throw.
    - apply set_content_ok. cbn. by rewrite Hd.
    - unfold API.getOwnerChargers. erewrite bind_ok by exact Hr.
      fold stations. erewrite bind_ok by reflexivity.
      unfold ownerChargers_length_is_zero. rewrite Hu. reflexivity. }
  rewrite Hrun. split; [reflexivity|]. cbn. apply lookup_insert_eq.
Qed.

End TableProps.

(** C8, on the three demo stations when the booking fetch for the second
    one fails.  The aggregate count is the sum over the first and the
    third station.  The station table is not built while [ownerChargers]
    is unbound; on a page that binds it, the second station's row holds
    the count [0], which is not the row with the dash. *)
Theorem owner_table_on_failed_fetch :
  let unbound := Sample.browser Sample.owner_network None in
  let bound := Sample.browser Sample.owner_network (Some false) in
  match Sample.demo_stations with
  | [a; b; c] =>
      (API.getChargerBookings (H := unbound) (_id b) Sample.owner_page).1
        = Ok (API.offline_error "Failed to fetch")
      ∧ dom (Owner.loadStatistics (H := unbound) Sample.owner_page).2 !! "totalBookings"
        = Some "3"
      ∧ dom (Owner.loadOwnerStations (H := unbound) Sample.page).2 !! "myChargersList"
        = Some Owner.could_not_load
      ∧ dom (Owner.loadOwnerStations (H := bound) Sample.page).2 !! "myChargersList"
        = Some (render (Owner.table_head ++ Owner.row a 2 ++ Owner.row b 0
                        ++ Owner.row c 1 ++ Owner.table_foot))
      ∧ Owner.row b 0 ≠ Owner.row_without_count b
  | _ => False
  end.
Proof.
  intros unbound bound.
  cbn [Sample.demo_stations Sample.demo_items API.DEMO_CHARGERS fmap list_fmap].
  split; [reflexivity|]. split; [by vm_compute|]. split; [by vm_compute|].
  split; [by vm_compute|]. vm_compute. discriminate.
Qed.

(** * Further properties of the API client and of the session *)

Section ClientFrame.
Context `{Browser}.
Import JS.

(** X1.  A request changes the page in one case only: a 401 response
    delivered in time, which logs out.  In every other case the page is
    the one before the call; the document, the location, the alerts and
    the station lists are never touched. *)
Theorem request_changes_page_only_on_401 (p : Page) (method endpoint : string)
    (data : option json) :
  let run := API.request method endpoint data p in
  dom run.2 = dom p
  ∧ href run.2 = href p
  ∧ alerts run.2 = alerts p
  ∧ chargers run.2 = chargers p
  ∧ ownerStations run.2 = ownerStations p
  ∧ (run.2 = p
     ∨ (run.2 = logged_out p
        ∧ ∃ r, delivery_of API.TIMEOUT_MS
                 (network (API.options_for (localStorage p !! "token") method endpoint data))
               = Delivered r
               ∧ status r = 401%Z)).
Proof.
  intros run. unfold run. rewrite request_run.
  destruct (delivery_of _ _) as [r|err] eqn:Hd; [|by repeat split; try left].
  cbn zeta. destruct (Z.eqb_spec (status r) 401) as [E|E].
  - destruct (body r); cbn [snd]; repeat split; right; (split; [done|by exists r]).
  - destruct (body r); cbn [snd]; repeat split; by left.
Qed.

(** X2.  A stored non-empty token is sent as [Authorization: Bearer ...];
    once a 401 has been received, the requests that follow carry no
    authorization. *)
Theorem request_after_401_is_anonymous (p : Page) (method endpoint : string)
    (data : option json) (t : string) (r : Response) :
  localStorage p !! "token" = Some t →
  t ≠ "" →
  delivery_of API.TIMEOUT_MS
    (network (API.options_for (localStorage p !! "token") method endpoint data))
    = Delivered r →
  status r = 401%Z →
  req_authorization (API.options_for (localStorage p !! "token") method endpoint data)
    = Some ("Bearer " +:+ t)
  ∧ ∀ method' endpoint' data',
      req_authorization
        (API.options_for (localStorage (API.request method endpoint data p).2 !! "token")
           method' endpoint' data')
      = None.
Proof.
  intros Ht Hne Hd Hs. split.
  - rewrite Ht. cbn. apply String.eqb_neq in Hne. by rewrite Hne.
  - intros m' e' d'. rewrite request_run, Hd, Hs. cbn zeta.
    change (401 =? 401)%Z with true. cbv iota.
    assert (E : ∀ o : outcome json, (o, logged_out p).2 = logged_out p) by reflexivity.
    destruct (body r); rewrite E; cbn;
      rewrite lookup_delete_ne by done; by rewrite lookup_delete_eq.
Qed.

(** X3.  [getUserImpact] answers a transport failure with the default
    impact (green score 50, no sessions), and returns every other result
    that is not [null] and reports no failure as it is. *)
Theorem getUserImpact_fallback (p p' : Page) (result : json) :
  API.request "GET" "/users/impact" None p = (Ok result, p') →
  result ≠ JNull →
  API.getUserImpact p
  = (Ok (if reports_failure result then API.default_impact else result), p')
  ∧ (∀ msg, result = API.offline_error msg →
            API.getUserImpact p = (Ok API.default_impact, p')).
Proof.
  intros Hr Hn.
  assert (E : API.getUserImpact p
              = (Ok (if reports_failure result then API.default_impact else result), p')).
  { unfold API.getUserImpact, mbind, M_bind at 1. rewrite Hr.
    unfold M_bind. rewrite (failed_run _ _ Hn). by destruct (reports_failure result). }
  split; [exact E|]. intros msg ->. by rewrite E, offline_error_reports_failure.
Qed.

End ClientFrame.

Lemma request_after_401_is_anonymous_witness :
  let B := Sample.browser Sample.unauthorized None in
  req_authorization
    (API.options_for (localStorage Sample.page !! "token") "GET" "/users/profile" None)
    = Some "Bearer t0"
  ∧ req_authorization
      (API.options_for
         (localStorage (API.request "GET" "/users/profile" None Sample.page).2 !! "token")
         "GET" "/chargers" None)
    = None.
Proof.
  intros B.
  destruct (request_after_401_is_anonymous (H := B) Sample.page "GET" "/users/profile" None
              "t0" {| status := 401;
                      body := BodyJson (JS.JObj [("message", JS.JStr "Invalid token")]) |}
              eq_refl ltac:(discriminate) eq_refl eq_refl) as [H1 H2].
  split; [exact H1|]. exact (H2 "GET" "/chargers" None).
Defined.

Lemma getUserImpact_fallback_witness :
  let B := Sample.browser Sample.offline None in
  API.getUserImpact Sample.page = (Ok API.default_impact, Sample.page).
Proof.
  intros B.
  exact (proj2 (getUserImpact_fallback (H := B) Sample.page Sample.page
                  (API.offline_error "Failed to fetch") eq_refl ltac:(discriminate))
               "Failed to fetch" eq_refl).
Defined.

Section SessionProps.
Context `{Browser}.
Import JS.

Lemma no_token_run (result : json) (p : Page) :
  Auth.no_token result p = (Ok (negb (truthy (opt_prop (Some result) "token"))), p).
Proof.
  unfold Auth.no_token.
  destruct result as [|[]|m sc|s| |]; try reflexivity.
  - cbn [truthy]. by destruct (negb (m =? 0)%Z).
  - cbn [truthy]. by destruct (negb (String.eqb s "")).
Qed.

Lemma login_without_token_run (p p1 : Page) (email password role : string) (j : json) :
  API.login email password p = (Ok j, p1) →
  truthy (opt_prop (Some j) "token") = false →
  ∃ msg, Auth.login email password role p = (Ok (), with_alert msg p1).
Proof.
  intros Hr Ht. unfold Auth.login. eexists.
  erewrite try_catch_ok; [reflexivity|].
  erewrite bind_ok by exact Hr.
  erewrite bind_ok by apply no_token_run. rewrite Ht. reflexivity.
Qed.

(** X4.  A login whose answer holds no token (a failure shape, an error
    body, [null]) persists nothing and does not redirect: the call
    returns, local storage and the location are as the request left
    them, and one alert is shown. *)
Theorem login_without_token (p p1 : Page) (email password role : string) (j : json) :
  API.login email password p = (Ok j, p1) →
  truthy (opt_prop (Some j) "token") = false →
  let run := Auth.login email password role p in
  run.1 = Ok ()
  ∧ localStorage run.2 = localStorage p1
  ∧ href run.2 = href p1
  ∧ length (alerts run.2) = S (length (alerts p1)).
Proof.
  intros Hr Ht run.
  destruct (login_without_token_run p p1 email password role j Hr Ht) as [msg Hrun].
  unfold run. rewrite Hrun. cbn. rewrite length_app. cbn. repeat split. lia.
Qed.

Lemma login_success_run (p p1 : Page) (email password role : string) (j u : json)
    (token : value) :
  API.login email password p = (Ok j, p1) →
  opt_prop (Some j) "token" = token →
  truthy token = true →
  opt_prop (Some j) "user" = Some u →
  is_string (opt_prop (Some u) "role") role = true →
  Auth.login email password role p
  = (Ok (),
     with_href (if String.eqb role "owner" then "/public/owner.html"
                else "/public/dashboard.html")
       (with_localStorage <["user" := JSON_stringify u]>
          (with_localStorage <["token" := Auth.display token]> p1))).
Proof.
  intros Hr Htok Ht Hu Hrole. unfold Auth.login.
  erewrite try_catch_ok; [reflexivity|].
  erewrite bind_ok by exact Hr.
  erewrite bind_ok by apply no_token_run. rewrite Htok, Ht. cbn [negb].
  destruct j as [| | | | |fields]; try (subst token; discriminate Ht).
  cbn in Hu, Htok.
  destruct u as [| | | | |ufields]; try discriminate Hrole.
  cbn in Hrole.
  unfold mbind, M_bind, lift. cbn. rewrite Hu. cbn. rewrite Hrole. cbn.
  rewrite Htok. cbn. unfold is_string in Hrole |- *.
  destruct (assoc "role" ufields) as [[| | |s| |]|]; try discriminate Hrole.
  apply String.eqb_eq in Hrole as ->. reflexivity.
Qed.

(** X5.  A login answered with a token and a user of the portal's role
    stores the token and the serialised user, and sends the page to the
    owner dashboard for the role [owner], to the user dashboard
    otherwise. *)
Theorem login_success (p p1 : Page) (email password role : string) (j u : json) :
  API.login email password p = (Ok j, p1) →
  truthy (opt_prop (Some j) "token") = true →
  opt_prop (Some j) "user" = Some u →
  is_string (opt_prop (Some u) "role") role = true →
  let run := Auth.login email password role p in
  run.1 = Ok ()
  ∧ localStorage run.2 !! "token" = Some (Auth.display (opt_prop (Some j) "token"))
  ∧ localStorage run.2 !! "user" = Some (JSON_stringify u)
  ∧ href run.2 = (if String.eqb role "owner" then "/public/owner.html"
                  else "/public/dashboard.html")
  ∧ alerts run.2 = alerts p1.
Proof.
  intros Hr Ht Hu Hrole run. unfold run.
  rewrite (login_success_run p p1 email password role j u _ Hr eq_refl Ht Hu Hrole).
  cbn. split; [done|]. split; [|split; [apply lookup_insert_eq|done]].
  rewrite lookup_insert_ne by done. apply lookup_insert_eq.
Qed.

End SessionProps.

Lemma login_without_token_witness :
  let B := Sample.browser Sample.offline None in
  let run := Auth.login "ada@example.com" "secret" "owner" Sample.page in
  run.1 = Ok ()
  ∧ localStorage run.2 = localStorage Sample.page
  ∧ href run.2 = href Sample.page
  ∧ length (alerts run.2) = 1.
Proof.
  intros B.
  exact (login_without_token (H := B) Sample.page Sample.page "ada@example.com" "secret"
           "owner" (API.offline_error "Failed to fetch") eq_refl eq_refl).
Defined.

Lemma login_success_witness :
  let B := Sample.browser Sample.accepting None in
  let run := Auth.login "ada@example.com" "secret" "owner" Sample.page in
  run.1 = Ok ()
  ∧ localStorage run.2 !! "token" = Some "abc"
  ∧ localStorage run.2 !! "user" = Some "{}"
  ∧ href run.2 = "/public/owner.html"
  ∧ alerts run.2 = [].
Proof.
  intros B.
  exact (login_success (H := B) Sample.page Sample.page "ada@example.com" "secret" "owner"
           Sample.owner_payload
           (JS.JObj [("name", JS.JStr "Ada"); ("role", JS.JStr "owner")])
           eq_refl eq_refl eq_refl eq_refl).
Defined.

Section RegisterProps.
Context `{Browser}.
Import JS.

(** X6.  A registration whose answer holds no token persists nothing and
    does not redirect; one alert is shown. *)
Theorem register_without_token (p p1 : Page) (name email password role : string)
    (j : json) :
  API.register name email password role p = (Ok j, p1) →
  truthy (opt_prop (Some j) "token") = false →
  let run := Auth.register name email password role p in
  run.1 = Ok ()
  ∧ localStorage run.2 = localStorage p1
  ∧ href run.2 = href p1
  ∧ length (alerts run.2) = S (length (alerts p1)).
Proof.
  intros Hr Ht run.
  assert (∃ msg, Auth.register name email password role p = (Ok (), with_alert msg p1))
    as [msg Hrun].
  { unfold Auth.register. eexists. erewrite try_catch_ok; [reflexivity|].
    erewrite bind_ok by exact Hr. erewrite bind_ok by apply no_token_run.
    rewrite Ht. reflexivity. }
  unfold run. rewrite Hrun. cbn. rewrite length_app. cbn. repeat split. lia.
Qed.

(** X7.  A registration answered with a token and a user stores both and
    redirects by the role of the returned user, whatever role was asked
    for: to the owner dashboard for [owner], to the user dashboard
    otherwise. *)
Theorem register_success (p p1 : Page) (name email password role : string)
    (j u : json) :
  API.register name email password role p = (Ok j, p1) →
  truthy (opt_prop (Some j) "token") = true →
  opt_prop (Some j) "user" = Some u →
  u ≠ JNull →
  let run := Auth.register name email password role p in
  run.1 = Ok ()
  ∧ localStorage run.2 !! "token" = Some (Auth.display (opt_prop (Some j) "token"))
  ∧ localStorage run.2 !! "user" = Some (JSON_stringify u)
  ∧ href run.2 = (if is_string (opt_prop (Some u) "role") "owner"
                  then "/public/owner.html" else "/public/dashboard.html")
  ∧ alerts run.2 = alerts p1.
Proof.
  intros Hr Ht Hu Hn run.
  assert (Hrun : Auth.register name email password role p
                 = (Ok (),
                    with_href (if is_string (opt_prop (Some u) "role") "owner"
                               then "/public/owner.html" else "/public/dashboard.html")
                      (with_localStorage <["user" := JSON_stringify u]>
                         (with_localStorage
                            <["token" := Auth.display (opt_prop (Some j) "token")]> p1)))).
  { unfold Auth.register. erewrite try_catch_ok; [reflexivity|].
    erewrite bind_ok by exact Hr. erewrite bind_ok by apply no_token_run.
    rewrite Ht. cbn [negb].
    destruct j as [| | | | |fields]; try discriminate Ht. cbn in Hu, Ht |- *.
    unfold mbind, M_bind, lift. cbn. rewrite Hu. cbn.
    by destruct u as [| | | | |ufields]. }
  unfold run. rewrite Hrun. cbn. split; [done|].
  split; [|split; [apply lookup_insert_eq|done]].
  rewrite lookup_insert_ne by done. apply lookup_insert_eq.
Qed.

(** X8.  A registration answered with a token but without a user is
    persisted half-way: the token and a [user] entry are stored, then
    reading the user's name throws, so that the call ends with an alert
    and without a redirect. *)
Theorem register_without_user (p p1 : Page) (name email password role : string)
    (j : json) :
  API.register name email password role p = (Ok j, p1) →
  truthy (opt_prop (Some j) "token") = true →
  opt_prop (Some j) "user" = None ∨ opt_prop (Some j) "user" = Some JNull →
  let run := Auth.register name email password role p in
  run.1 = Ok ()
  ∧ localStorage run.2 !! "token" = Some (Auth.display (opt_prop (Some j) "token"))
  ∧ is_Some (localStorage run.2 !! "user")
  ∧ href run.2 = href p1
  ∧ length (alerts run.2) = S (length (alerts p1)).
Proof.
  intros Hr Ht Hu run.
  assert (∃ stored msg,
            Auth.register name email password role p
            = (Ok (),
               with_alert msg
                 (with_localStorage <["user" := stored]>
                    (with_localStorage
                       <["token" := Auth.display (opt_prop (Some j) "token")]> p1))))
    as (stored & msg & Hrun).
  { unfold Auth.register.
    destruct j as [| | | | |fields]; try discriminate Ht. cbn in Hu, Ht.
    destruct Hu as [Hu|Hu].
    - eexists _, _. erewrite try_catch_throw; [reflexivity|].
      erewrite bind_ok by exact Hr. erewrite bind_ok by apply no_token_run.
      cbn [opt_prop]. rewrite Ht. cbn [negb].
      unfold mbind, M_bind, lift. cbn. rewrite Hu. cbn. reflexivity.
    - eexists _, _. erewrite try_catch_throw; [reflexivity|].
      erewrite bind_ok by exact Hr. erewrite bind_ok by apply no_token_run.
      cbn [opt_prop]. rewrite Ht. cbn [negb].
      unfold mbind, M_bind, lift. cbn. rewrite Hu. cbn. reflexivity. }
  unfold run. rewrite Hrun. cbn. split; [done|].
  split; [by rewrite lookup_insert_ne by done; apply lookup_insert_eq|].
  split; [by rewrite lookup_insert_eq|]. split; [done|].
  rewrite length_app. cbn. lia.
Qed.

End RegisterProps.

Lemma register_without_token_witness :
  let B := Sample.browser Sample.offline None in
  let run := Auth.register "Ada" "ada@example.com" "secret" "owner" Sample.page in
  run.1 = Ok ()
  ∧ localStorage run.2 = localStorage Sample.page
  ∧ href run.2 = href Sample.page
  ∧ length (alerts run.2) = 1.
Proof.
  intros B.
  exact (register_without_token (H := B) Sample.page Sample.page "Ada" "ada@example.com"
           "secret" "owner" (API.offline_error "Failed to fetch") eq_refl eq_refl).
Defined.

Lemma register_success_witness :
  let B := Sample.browser Sample.accepting None in
  let run := Auth.register "Ada" "ada@example.com" "secret" "user" Sample.page in
  run.1 = Ok ()
  ∧ localStorage run.2 !! "token" = Some "abc"
  ∧ localStorage run.2 !! "user" = Some "{}"
  ∧ href run.2 = "/public/owner.html"
  ∧ alerts run.2 = [].
Proof.
  intros B.
  exact (register_success (H := B) Sample.page Sample.page "Ada" "ada@example.com"
           "secret" "user" Sample.owner_payload
           (JS.JObj [("name", JS.JStr "Ada"); ("role", JS.JStr "owner")])
           eq_refl eq_refl eq_refl ltac:(discriminate)).
Defined.

Lemma register_without_user_witness :
  let B := Sample.browser Sample.forgetful None in
  let run := Auth.register "Ada" "ada@example.com" "secret" "user" Sample.page in
  run.1 = Ok ()
  ∧ localStorage run.2 !! "token" = Some "abc"
  ∧ is_Some (localStorage run.2 !! "user")
  ∧ href run.2 = href Sample.page
  ∧ length (alerts run.2) = 1.
Proof.
  intros B.
  exact (register_without_user (H := B) Sample.page Sample.page "Ada" "ada@example.com"
           "secret" "user" Sample.token_only eq_refl eq_refl (or_introl eq_refl)).
Defined.

Section LogoutProps.
Context `{Browser}.
Import JS.

(** X9.  [logout] removes both session keys and sends the page to the
    index; after it the session is not authenticated, [requireAuth]
    refuses, and a second [logout] changes nothing. *)
Theorem logout_ends_session (p : Page) :
  let p' := (Auth.logout p).2 in
  (Auth.logout p).1 = Ok ()
  ∧ localStorage p' !! "token" = None
  ∧ localStorage p' !! "user" = None
  ∧ href p' = "/public/index.html"
  ∧ Auth.isAuthenticated p' = (Ok false, p')
  ∧ Auth.requireAuth p' = (Ok false, p')
  ∧ Auth.logout p' = (Ok (), p').
Proof.
  cbn zeta.
  assert (Ht : delete "user" (delete "token" (localStorage p)) !! "token" = None).
  { rewrite lookup_delete_ne by done. apply lookup_delete_eq. }
  assert (Hi : delete "user" (delete "token" (delete "user" (delete "token" (localStorage p))))
               = delete "user" (delete "token" (localStorage p))).
  { apply map_eq. intros k. rewrite !lookup_delete. by repeat case_decide. }
  split; [reflexivity|]. split; [exact Ht|]. split; [apply lookup_delete_eq|].
  split; [reflexivity|].
  assert (Ha : Auth.isAuthenticated (Auth.logout p).2 = (Ok false, (Auth.logout p).2)).
  { change (localStorage (Auth.logout p).2)
      with (delete "user" (delete "token" (localStorage p))) in *.
    unfold Auth.isAuthenticated, mbind, M_bind, getItem.
    change (localStorage (Auth.logout p).2)
      with (delete "user" (delete "token" (localStorage p))).
    by rewrite Ht. }
  split; [exact Ha|]. split.
  - unfold Auth.requireAuth. erewrite bind_ok by exact Ha. reflexivity.
  - unfold Auth.logout, mbind, M_bind, removeItem, navigate, with_href, with_localStorage.
    cbn. by rewrite Hi.
Qed.

(** X10.  After a successful login with a non-empty string token the
    session is authenticated and [requireAuth] lets the page through
    without a redirect. *)
Theorem login_then_authenticated (p p1 : Page) (email password role t : string)
    (j u : json) :
  ToString (JStr t) = t →
  t ≠ "" →
  API.login email password p = (Ok j, p1) →
  opt_prop (Some j) "token" = Some (JStr t) →
  opt_prop (Some j) "user" = Some u →
  is_string (opt_prop (Some u) "role") role = true →
  let p' := (Auth.login email password role p).2 in
  Auth.isAuthenticated p' = (Ok true, p')
  ∧ Auth.requireAuth p' = (Ok true, p').
Proof.
  intros HS Hne Hr Htok Hu Hrole p'.
  assert (Ha : Auth.isAuthenticated p' = (Ok true, p')).
  { unfold p'.
    rewrite (login_success_run p p1 email password role j u (Some (JStr t)) Hr Htok
               ltac:(cbn; by apply negb_true_iff, String.eqb_neq) Hu Hrole).
    unfold Auth.isAuthenticated, mbind, M_bind, getItem. cbn.
    rewrite lookup_insert_ne by done. rewrite lookup_insert_eq, HS.
    apply String.eqb_neq in Hne. by rewrite Hne. }
  split; [exact Ha|]. unfold Auth.requireAuth. by erewrite bind_ok by exact Ha.
Qed.

End LogoutProps.

Lemma login_then_authenticated_witness :
  let B := Sample.browser Sample.accepting None in
  let p' := (Auth.login "ada@example.com" "secret" "owner" Sample.page).2 in
  Auth.isAuthenticated p' = (Ok true, p')
  ∧ Auth.requireAuth p' = (Ok true, p').
Proof.
  intros B.
  exact (login_then_authenticated (H := B) Sample.page Sample.page "ada@example.com"
           "secret" "owner" "abc" Sample.owner_payload
           (JS.JObj [("name", JS.JStr "Ada"); ("role", JS.JStr "owner")])
           eq_refl ltac:(discriminate) eq_refl eq_refl eq_refl eq_refl).
Defined.

(** * Further properties of the rendering code *)

Section EscapeProps.
Import MapView.

Lemma unescape_plain (c : ascii) (t : string) :
  Ascii.eqb c "&" = false →
  unescape_from 0 (String c t) = String c (unescape_from 0 t).
Proof.
  intros E. rewrite Ascii.eqb_sym in E.
  cbn [unescape_from starts_with]. by rewrite E.
Qed.

Lemma unescape_escapeHtml (s : string) : unescape_from 0 (escapeHtml s) = s.
Proof.
  cut (unescape_from 0 (escapeHtml s) = s
       ∧ ∀ c, unescape_from 0 (escapeHtml (String c s)) = String c s); [tauto|].
  induction s as [|d s [IH1 IH2]].
  - split; [reflexivity|]. intros c. cbn [escapeHtml].
    destruct (Ascii.eqb_spec c "&") as [->|E1]; [reflexivity|].
    destruct (Ascii.eqb_spec c "<") as [->|E2]; [reflexivity|].
    destruct (Ascii.eqb_spec c ">") as [->|E3]; [reflexivity|].
    apply unescape_plain. by apply Ascii.eqb_neq.
  - split; [apply IH2|]. intros c.
    change (escapeHtml (String c (String d s))) with
      (if Ascii.eqb c "&" then "&amp;" +:+ escapeHtml (String d s)
       else if Ascii.eqb c "<" then "&lt;" +:+ escapeHtml (String d s)
       else if Ascii.eqb c ">" then "&gt;" +:+ escapeHtml (String d s)
       else if Ascii.eqb c "194" && Ascii.eqb d "160"
            then "&nbsp;" +:+ escapeHtml s
            else String c (escapeHtml (String d s))).
    destruct (Ascii.eqb_spec c "&") as [->|E1].
    { change (unescape_from 0 ("&amp;" +:+ escapeHtml (String d s)))
        with (String "&" (unescape_from 0 (escapeHtml (String d s)))).
      by rewrite IH2. }
    destruct (Ascii.eqb_spec c "<") as [->|E2].
    { change (unescape_from 0 ("&lt;" +:+ escapeHtml (String d s)))
        with (String "<" (unescape_from 0 (escapeHtml (String d s)))).
      by rewrite IH2. }
    destruct (Ascii.eqb_spec c ">") as [->|E3].
    { change (unescape_from 0 ("&gt;" +:+ escapeHtml (String d s)))
        with (String ">" (unescape_from 0 (escapeHtml (String d s)))).
      by rewrite IH2. }
    destruct (Ascii.eqb_spec c "194") as [->|E4]; cbn [andb].
    + destruct (Ascii.eqb_spec d "160") as [->|E5].
      * change (unescape_from 0 ("&nbsp;" +:+ escapeHtml s))
          with (String "194" (String "160" (unescape_from 0 (escapeHtml s)))).
        by rewrite IH1.
      * rewrite unescape_plain by reflexivity. by rewrite IH2.
    + rewrite unescape_plain by (by apply Ascii.eqb_neq). by rewrite IH2.
Qed.

(** X11.  [escapeHtml] loses nothing: two texts that are written the same
    are the same text. *)
Theorem escapeHtml_injective (s t : string) :
  escapeHtml s = escapeHtml t → s = t.
Proof.
  intros E. rewrite <- (unescape_escapeHtml s), <- (unescape_escapeHtml t).
  by rewrite E.
Qed.

(** X12.  A text without [&], [<], [>] and without the first byte of a
    no-break space is written as it is. *)
Theorem escapeHtml_plain_text (s : string) :
  occurs "&" s = false → occurs "<" s = false → occurs ">" s = false →
  occurs "194" s = false →
  escapeHtml s = s.
Proof.
  induction s as [|c s IH]; [reflexivity|].
  cbn [occurs]. intros [Ea Ha]%orb_false_iff [El Hl]%orb_false_iff
    [Eg Hg]%orb_false_iff [En Hn]%orb_false_iff.
  specialize (IH Ha Hl Hg Hn).
  destruct s as [|d s]; cbn [escapeHtml] in IH |- *; rewrite Ea, El, Eg; [reflexivity|].
  rewrite En. cbn [andb]. by rewrite IH.
Qed.

End EscapeProps.

Lemma escapeHtml_injective_witness :
  MapView.escapeHtml "a<b" = MapView.escapeHtml "a<b" ∧ "a<b" = "a<b".
Proof.
  split; [reflexivity|]. exact (escapeHtml_injective "a<b" "a<b" eq_refl).
Defined.

Lemma escapeHtml_plain_text_witness :
  MapView.escapeHtml "Oxford Street Hub" = "Oxford Street Hub".
Proof.
  exact (escapeHtml_plain_text "Oxford Street Hub" eq_refl eq_refl eq_refl eq_refl).
Defined.

Section AttributeProps.
Context `{Browser}.
Import MapView.

(** X13.  The [onclick] attribute of a sidebar card embeds the serialised
    record of its station with every double quote replaced by the entity
    and nothing else changed: whatever the record holds, the embedded
    text contains no double quote that could end the attribute. *)
Theorem card_record_has_no_quote (c : Charger) (p : piece) :
  p ∈ card c → record_replaced c p ∧ record_quote_free p.
Proof.
  intros Hin. split.
  - pose proof (card_record c) as HF. rewrite Forall_forall in HF. exact (HF _ Hin).
  - revert p Hin. apply Forall_forall. unfold card. cbv zeta.
    repeat first
      [ apply Forall_app; split
      | apply Forall_nil_2
      | apply Forall_cons_2; [first [exact I | by apply replace_char_removes]|] ].
Qed.

(** X14.  In a row of the owner's table the description is written into
    the [onclick] handler with every apostrophe replaced, in the counted
    row and in the row with the dash alike. *)
Theorem row_description_has_no_apostrophe (c : Charger) (n : nat) (p : piece) :
  p ∈ Owner.row c n ∨ p ∈ Owner.row_without_count c →
  description_apostrophe_free p.
Proof.
  intros [Hin|Hin]; revert p Hin; apply Forall_forall;
    [unfold Owner.row|unfold Owner.row_without_count];
    repeat first
      [ apply Forall_app; split
      | apply Forall_nil_2
      | apply Forall_cons_2; [first [exact I | by apply replace_char_removes]|] ].
Qed.

End AttributeProps.

Lemma card_record_has_no_quote_witness :
  let B := Sample.browser Sample.silent None in
  let written :=
    "{&quot;_id&quot;:&quot;s1&quot;,&quot;name&quot;:&quot;\&quot;Plaza\&quot;&quot;,"
    +:+ "&quot;latitude&quot;:0,&quot;longitude&quot;:0,"
    +:+ "&quot;chargerType&quot;:&quot;Level 2&quot;,"
    +:+ "&quot;totalSlots&quot;:4,&quot;availableSlots&quot;:1}" in
  occurs "034" (stringify_station Sample.quoted) = true
  ∧ Station Sample.quoted written ∈ MapView.card Sample.quoted
  ∧ occurs "034" written = false.
Proof.
  intros B written.
  assert (Hin : Station Sample.quoted written ∈ MapView.card Sample.quoted).
  { unfold MapView.card. cbv zeta. do 3 (apply elem_of_app; right).
    apply elem_of_app. left. apply list_elem_of_singleton. by vm_compute. }
  split; [by vm_compute|]. split; [exact Hin|].
  exact (proj2 (card_record_has_no_quote (H := B) Sample.quoted _ Hin)).
Defined.

Lemma row_description_has_no_apostrophe_witness :
  User Description "Joe's garage" "Joe&apos;s garage" ∈ Owner.row Sample.joes 0
  ∧ occurs "039" "Joe&apos;s garage" = false.
Proof.
  assert (Hin : User Description "Joe's garage" "Joe&apos;s garage"
                ∈ Owner.row Sample.joes 0).
  { unfold Owner.row. do 17 (apply elem_of_app; right).
    apply elem_of_app. left. apply list_elem_of_singleton. reflexivity. }
  split; [exact Hin|].
  exact (row_description_has_no_apostrophe Sample.joes 0 _ (or_introl Hin)).
Defined.

Section ListFrame.
Context `{Browser}.
Import MapView.

(** X15.  [renderChargersList] does nothing on a page without the list
    container; with the container it writes that one element and nothing
    else, and rendering twice is rendering once. *)
Theorem renderChargersList_writes_one_element (p : Page) :
  let run := renderChargersList p in
  (dom p !! "chargersList" = None → run = (Ok (), p))
  ∧ (∀ id, id ≠ "chargersList" → dom run.2 !! id = dom p !! id)
  ∧ localStorage run.2 = localStorage p
  ∧ chargers run.2 = chargers p
  ∧ alerts run.2 = alerts p
  ∧ renderChargersList run.2 = run.
Proof.
  cbn zeta. unfold renderChargersList.
  destruct (dom p !! "chargersList") as [old|] eqn:Hc.
  - split; [discriminate|]. cbn [snd dom with_dom localStorage chargers alerts].
    split; [by intros id Hid; rewrite lookup_insert_ne|].
    split; [done|]. split; [done|]. split; [done|].
    rewrite lookup_insert_eq. unfold with_dom. cbn. by rewrite insert_insert_eq.
  - cbn [snd]. rewrite Hc. done.
Qed.

(** X16.  With the three elements of the modal in the document,
    [showChargerDetail] selects the station, puts its name into the title
    as text and the detail markup into the body, and labels the button
    [No Slots Available] exactly when the station is classified [busy]
    (for a non-negative available count). *)
Theorem showChargerDetail_fills_modal (c : Charger) (p : Page) :
  (0 ≤ availableSlots c)%Z →
  is_Some (dom p !! "chargerModalTitle") →
  is_Some (dom p !! "chargerModalBody") →
  is_Some (dom p !! "bookChargerBtn") →
  let run := showChargerDetail c p in
  run.1 = Ok ()
  ∧ selectedCharger run.2 = Some c
  ∧ dom run.2 !! "chargerModalTitle" = Some (name c)
  ∧ dom run.2 !! "chargerModalBody" = Some (render (detail c))
  ∧ dom run.2 !! "bookChargerBtn"
    = Some (match getChargerStatus c with
            | busy => "No Slots Available"
            | _ => "Book Now"
            end).
Proof.
  intros Ha Ht Hb Hk run.
  set (label := if (0 <? availableSlots c)%Z then "Book Now" else "No Slots Available").
  assert (Hrun : run
    = (Ok (), with_dom <["bookChargerBtn" := label]>
                (with_dom <["chargerModalBody" := render (detail c)]>
                   (with_dom <["chargerModalTitle" := name c]>
                      (with_selectedCharger c p))))).
  { unfold run, showChargerDetail.
    erewrite bind_ok by reflexivity.
    erewrite bind_ok by (by apply set_content_ok).
    erewrite bind_ok
      by (apply set_content_ok; cbn; by rewrite lookup_insert_ne).
    apply set_content_ok. cbn. by rewrite !lookup_insert_ne. }
  rewrite Hrun. cbn [fst snd dom with_dom selectedCharger with_selectedCharger].
  split; [done|]. split; [done|].
  split; [by rewrite !lookup_insert_ne by done; rewrite lookup_insert_eq|].
  split; [by rewrite lookup_insert_ne by done; rewrite lookup_insert_eq|].
  rewrite lookup_insert_eq. f_equal. unfold label.
  rewrite getChargerStatus_cases.
  destruct (Z.eqb_spec (availableSlots c) 0) as [E|E].
  - by rewrite E.
  - destruct (Z.ltb_spec 0 (availableSlots c)); [|lia].
    by destruct (_ <? _)%Z.
Qed.

(** X17.  Without the title element [showChargerDetail] throws before it
    writes anything; the station is selected all the same. *)
Theorem showChargerDetail_without_title (c : Charger) (p : Page) :
  dom p !! "chargerModalTitle" = None →
  ∃ e, showChargerDetail c p = (Throw e, with_selectedCharger c p).
Proof.
  intros Ht. eexists. unfold showChargerDetail.
  erewrite bind_ok by reflexivity.
  unfold mbind, M_bind, set_content. cbn. rewrite Ht. reflexivity.
Qed.

Lemma find_charger_none (id : string) (l : list Charger) :
  (∀ c, c ∈ l → _id c ≠ id) → find_charger id l = None.
Proof.
  intros Hn. unfold find_charger. induction l as [|c l IH]; [reflexivity|].
  cbn. destruct (String.eqb_spec (_id c) id) as [E|_].
  - destruct (Hn c); [left|done].
  - apply IH. intros c' Hc'. apply Hn. by right.
Qed.

Lemma find_charger_first (id : string) (l1 l2 : list Charger) (c : Charger) :
  (∀ c', c' ∈ l1 → _id c' ≠ id) → _id c = id →
  find_charger id (l1 ++ c :: l2) = Some c.
Proof.
  intros Hn Hc. unfold find_charger. induction l1 as [|c1 l1 IH]; cbn.
  - apply String.eqb_eq in Hc. by rewrite Hc.
  - destruct (String.eqb_spec (_id c1) id) as [E|_].
    + destruct (Hn c1); [left|done].
    + apply IH. intros c' Hc'. apply Hn. by right.
Qed.

(** X18.  [selectAndShowBooking] with an id that no loaded station has
    leaves the page as it is; otherwise it shows the first station of
    the list with that id. *)
Theorem selectAndShowBooking_finds_first (id : string) (p : Page) :
  ((∀ c, c ∈ chargers p → _id c ≠ id) → selectAndShowBooking id p = (Ok (), p))
  ∧ (∀ l1 l2 c, chargers p = l1 ++ c :: l2 →
       (∀ c', c' ∈ l1 → _id c' ≠ id) → _id c = id →
       selectAndShowBooking id p = showChargerDetail c p).
Proof.
  split.
  - intros Hn. unfold selectAndShowBooking. by rewrite (find_charger_none _ _ Hn).
  - intros l1 l2 c Hl Hn Hc. unfold selectAndShowBooking.
    by rewrite Hl, (find_charger_first _ _ _ _ Hn Hc).
Qed.

End ListFrame.

Section PopupProps.
Context `{Browser} `{Parser}.
Import MapView.

(** X19.  The popup of a marker is built for the stored user: without a
    stored user there is no booking control in it, and with a stored
    user the control is offered exactly to the role [user]; a stored
    text that does not parse makes the construction throw. *)
Theorem markerPopup_uses_stored_role (c : Charger) (st : Status) (p : Page) :
  (localStorage p !! "user" = None →
   markerPopup c st p = (Ok (createMarkerPopup false c st), p)
   ∧ bookingButton false c = [])
  ∧ (∀ s fields, localStorage p !! "user" = Some s → s ≠ "" →
       JSON_parse s = inr (JS.JObj fields) →
       markerPopup c st p
       = (Ok (createMarkerPopup (JS.is_string (JS.assoc "role" fields) "user") c st), p))
  ∧ (∀ s e, localStorage p !! "user" = Some s → s ≠ "" →
       JSON_parse s = inl e → markerPopup c st p = (Throw e, p)).
Proof.
  split; [|split].
  - intros Hu. split; [|reflexivity].
    unfold markerPopup, Auth.getCurrentUser, mbind, M_bind, getItem. by rewrite Hu.
  - intros s fields Hu Hs Hp.
    unfold markerPopup, Auth.getCurrentUser, mbind, M_bind, getItem. rewrite Hu.
    apply String.eqb_neq in Hs. rewrite Hs. unfold lift. by rewrite Hp.
  - intros s e Hu Hs Hp.
    unfold markerPopup, Auth.getCurrentUser, mbind, M_bind, getItem. rewrite Hu.
    apply String.eqb_neq in Hs. rewrite Hs. unfold lift. by rewrite Hp.
Qed.

End PopupProps.

Lemma renderChargersList_writes_one_element_witness :
  let B := Sample.browser Sample.silent None in
  let run := MapView.renderChargersList Sample.listing in
  dom run.2 !! "totalStations" = dom Sample.listing !! "totalStations"
  ∧ MapView.renderChargersList run.2 = run
  ∧ MapView.renderChargersList Sample.bare = (Ok (), Sample.bare).
Proof.
  intros B.
  destruct (renderChargersList_writes_one_element (H := B) Sample.listing)
    as (_ & Hother & _ & _ & _ & Hidem).
  split; [exact (Hother "totalStations" ltac:(discriminate))|].
  split; [exact Hidem|].
  exact (proj1 (renderChargersList_writes_one_element (H := B) Sample.bare) eq_refl).
Defined.

Lemma showChargerDetail_fills_modal_witness :
  let B := Sample.browser Sample.silent None in
  let run := MapView.showChargerDetail Sample.joes Sample.page in
  run.1 = Ok ()
  ∧ selectedCharger run.2 = Some Sample.joes
  ∧ dom run.2 !! "chargerModalTitle" = Some "Joe"
  ∧ dom run.2 !! "chargerModalBody" = Some (render (MapView.detail Sample.joes))
  ∧ dom run.2 !! "bookChargerBtn" = Some "No Slots Available".
Proof.
  intros B.
  exact (showChargerDetail_fills_modal (H := B) Sample.joes Sample.page
           ltac:(cbn; lia) ltac:(by eexists) ltac:(by eexists) ltac:(by eexists)).
Defined.

Lemma showChargerDetail_without_title_witness :
  let B := Sample.browser Sample.silent None in
  ∃ e, MapView.showChargerDetail Sample.joes Sample.bare
       = (Throw e, with_selectedCharger Sample.joes Sample.bare).
Proof.
  intros B.
  exact (showChargerDetail_without_title (H := B) Sample.joes Sample.bare eq_refl).
Defined.

Lemma selectAndShowBooking_finds_first_witness :
  let B := Sample.browser Sample.silent None in
  MapView.selectAndShowBooking "none" Sample.crowded = (Ok (), Sample.crowded)
  ∧ MapView.selectAndShowBooking "s2" Sample.crowded
    = MapView.showChargerDetail Sample.scripted Sample.crowded.
Proof.
  intros B.
  destruct (selectAndShowBooking_finds_first (H := B) "none" Sample.crowded) as [Hnone _].
  destruct (selectAndShowBooking_finds_first (H := B) "s2" Sample.crowded) as [_ Hfirst].
  split.
  - apply Hnone. intros c Hc.
    repeat (apply elem_of_cons in Hc as [->|Hc]; [discriminate|]).
    by apply elem_of_nil in Hc.
  - apply (Hfirst [Sample.tower_bridge; Sample.joes] [Sample.quoted] Sample.scripted eq_refl);
      [|reflexivity].
    intros c Hc.
    repeat (apply elem_of_cons in Hc as [->|Hc]; [discriminate|]).
    by apply elem_of_nil in Hc.
Defined.

Lemma markerPopup_uses_stored_role_witness :
  let B := Sample.browser Sample.silent None in
  let J := Sample.parser in
  MapView.markerPopup Sample.tower_bridge MapView.available Sample.driver_page
  = (Ok (MapView.createMarkerPopup true Sample.tower_bridge MapView.available),
     Sample.driver_page)
  ∧ MapView.markerPopup Sample.tower_bridge MapView.available Sample.listing
    = (Ok (MapView.createMarkerPopup false Sample.tower_bridge MapView.available),
       Sample.listing).
Proof.
  intros B J.
  destruct (markerPopup_uses_stored_role (H := B) (H0 := J) Sample.tower_bridge
              MapView.available Sample.driver_page) as (_ & Hrole & _).
  destruct (markerPopup_uses_stored_role (H := B) (H0 := J) Sample.tower_bridge
              MapView.available Sample.listing) as (Hguest & _ & _).
  split.
  - exact (Hrole "user" [("role", JS.JStr "user")] eq_refl ltac:(discriminate) eq_refl).
  - exact (proj1 (Hguest eq_refl)).
Defined.

(** ** The leaderboard *)

Section LeaderboardProps.
Context `{Browser}.
Import MapView.

Lemma medalIcon_rank (idx : nat) : medalIcon idx = pretty (idx + 1) +:+ ".".
Proof. by destruct idx as [|[|[|idx]]]. Qed.

Lemma leader_rows_records (idx : nat) (items : list JS.json) :
  Forall (λ u, u ≠ JS.JNull) items →
  ∃ rows, leader_rows idx items = inr rows
          ∧ Forall text_escaped rows
          ∧ length (List.filter is_user_text rows) = length items.
Proof.
  intros Hf. revert idx. induction Hf as [|u items Hu _ IH]; intros idx.
  - by exists [].
  - destruct (IH (S idx)) as (rows & Hrows & Hesc & Hlen).
    assert (∃ row, leader_row idx u = inr row ∧ Forall text_escaped row
                   ∧ length (List.filter is_user_text row) = 1)
      as (row & Hrow & Hresc & Hrlen).
    { destruct u; try done; eexists; (split; [reflexivity|]);
        (split; [|reflexivity]);
        repeat first [apply Forall_app; split | exact I | reflexivity | constructor]. }
    exists (row ++ rows). cbn [leader_rows]. rewrite Hrow, Hrows.
    split; [reflexivity|]. split; [by apply Forall_app|].
    rewrite List.filter_app, length_app, Hrlen, Hlen. reflexivity.
Qed.

Lemma leader_rows_null (idx : nat) (items : list JS.json) :
  JS.JNull ∈ items → ∃ e, leader_rows idx items = inl e.
Proof.
  revert idx. induction items as [|u items IH]; intros idx Hin.
  - by apply elem_of_nil in Hin.
  - cbn [leader_rows]. destruct (leader_row idx u) as [e|row] eqn:Hrow; [by exists e|].
    apply elem_of_cons in Hin as [<-|Hin]; [discriminate Hrow|].
    destruct (IH (S idx) Hin) as [e ->]. by exists e.
Qed.

Lemma loadLeaderboard_shows_every_leader_aux (p p1 : Page) (u : JS.json)
    (items : list JS.json) :
  is_Some (dom p !! "leaderboard") →
  API.getLeaderboard p = (Ok (JS.JArr (u :: items)), p1) →
  dom p1 = dom p →
  Forall (λ u, u ≠ JS.JNull) (u :: items) →
  ∃ rows,
    leader_rows 0 (u :: items) = inr rows
    ∧ loadLeaderboard p = (Ok (), with_dom <["leaderboard" := render rows]> p1)
    ∧ Forall text_escaped rows
    ∧ length (List.filter is_user_text rows) = S (length items).
Proof.
  intros [old Hold] Hr Hd Hf.
  destruct (leader_rows_records 0 (u :: items) Hf) as (rows & Hrows & Hesc & Hlen).
  exists rows. split; [exact Hrows|]. split; [|by split].
  unfold loadLeaderboard. rewrite Hold.
  erewrite bind_ok by exact Hr. cbv zeta.
  erewrite bind_ok.
  - apply set_content_ok. rewrite Hd. by exists old.
  - erewrite bind_ok; [reflexivity|]. rewrite Hrows. reflexivity.
Qed.

(** What the rows substitute into the template, leader by leader. *)
Lemma leader_rows_fields (idx : nat) (items : list JS.json) :
  Forall (λ u, u ≠ JS.JNull) items →
  ∃ rows, leader_rows idx items = inr rows
          ∧ substitutions rows = concat (imap (λ i, leader_fields (idx + i)) items).
Proof.
  intros Hf. revert idx. induction Hf as [|u items Hu _ IH]; intros idx.
  - by exists [].
  - destruct (IH (S idx)) as (rows & Hrows & Hsub).
    assert (∃ row, leader_row idx u = inr row ∧ substitutions row = leader_fields idx u)
      as (row & Hrow & Hrsub).
    { destruct u; try done; eexists; (split; reflexivity). }
    exists (row ++ rows). cbn [leader_rows]. rewrite Hrow, Hrows.
    split; [reflexivity|].
    unfold substitutions in *. rewrite List.filter_app, Hrsub, Hsub, imap_cons.
    cbn [concat]. rewrite Nat.add_0_r. do 2 f_equal.
    apply imap_ext. intros i v _. cbn. by rewrite Nat.add_succ_r.
Qed.

(** X20.  With the container in the document and a list of leaders
    (records), the leaderboard shows one row for every leader of the
    list, however many, in list order.  What a row writes of its leader
    is the rank, the name through [escapeHtml], and the charging time and
    the score as they convert to text, these two without any escaping. *)
Theorem loadLeaderboard_shows_every_leader (p p1 : Page) (u : JS.json)
    (items : list JS.json) :
  is_Some (dom p !! "leaderboard") →
  API.getLeaderboard p = (Ok (JS.JArr (u :: items)), p1) →
  dom p1 = dom p →
  Forall (λ u, u ≠ JS.JNull) (u :: items) →
  ∃ rows,
    leader_rows 0 (u :: items) = inr rows
    ∧ loadLeaderboard p = (Ok (), with_dom <["leaderboard" := render rows]> p1)
    ∧ substitutions rows = concat (imap leader_fields (u :: items))
    ∧ length (List.filter is_user_text rows) = S (length items).
Proof.
  intros Hel Hr Hd Hf.
  destruct (loadLeaderboard_shows_every_leader_aux p p1 u items Hel Hr Hd Hf)
    as (rows & Hrows & Hrun & _ & Hlen).
  destruct (leader_rows_fields 0 (u :: items) Hf) as (rows' & Hrows' & Hsub).
  rewrite Hrows in Hrows'. injection Hrows' as <-.
  exists rows. done.
Qed.

(** X21.  An answer that is not a list, or an empty list, is shown as
    [No users yet]: such is every error body that the transport passes
    through. *)
Theorem loadLeaderboard_shows_no_users (p p1 : Page) (j : JS.json) :
  is_Some (dom p !! "leaderboard") →
  API.getLeaderboard p = (Ok j, p1) →
  dom p1 = dom p →
  (∀ u items, j ≠ JS.JArr (u :: items)) →
  loadLeaderboard p = (Ok (), with_dom <["leaderboard" := no_users]> p1).
Proof.
  intros [old Hold] Hr Hd Hj. unfold loadLeaderboard. rewrite Hold.
  erewrite bind_ok by exact Hr. cbv zeta.
  assert (E : match j with JS.JArr items => items | _ => [] end = []).
  { destruct j as [| | | |[|u items]|]; try reflexivity. by destruct (Hj u items). }
  rewrite E. erewrite bind_ok by reflexivity.
  apply set_content_ok. rewrite Hd. by exists old.
Qed.

(** X22.  A [null] entry in the list makes [loadLeaderboard] throw; the
    container keeps what it showed. *)
Theorem loadLeaderboard_null_entry (p p1 : Page) (items : list JS.json) :
  is_Some (dom p !! "leaderboard") →
  API.getLeaderboard p = (Ok (JS.JArr items), p1) →
  JS.JNull ∈ items →
  ∃ e, loadLeaderboard p = (Throw e, p1).
Proof.
  intros [old Hold] Hr Hin.
  destruct (leader_rows_null 0 items Hin) as [e He]. exists e.
  unfold loadLeaderboard. rewrite Hold.
  erewrite bind_ok by exact Hr. cbv zeta.
  destruct items as [|u items]; [by apply elem_of_nil in Hin|].
  unfold mbind, M_bind, lift. by rewrite He.
Qed.

(** X23.  Without the container [loadLeaderboard] returns at once: no
    request is sent, so that even a network that answers 401 to every
    request leaves the session alone.  When the transport fails, the
    board shows the two leaders of the built-in dataset. *)
Theorem loadLeaderboard_offline (p : Page) (err : JS.exn) :
  (dom p !! "leaderboard" = None → loadLeaderboard p = (Ok (), p))
  ∧ (is_Some (dom p !! "leaderboard") →
     delivery_of API.TIMEOUT_MS
       (network (API.options_for (localStorage p !! "token") "GET" "/users/leaderboard" None))
     = Rejected err →
     ∃ rows,
       loadLeaderboard p = (Ok (), with_dom <["leaderboard" := render rows]> p)
       ∧ User Name "John Smith" "John Smith" ∈ rows
       ∧ User Name "Sarah Johnson" "Sarah Johnson" ∈ rows
       ∧ length (List.filter is_user_text rows) = 2).
Proof.
  split.
  - intros Hn. unfold loadLeaderboard. by rewrite Hn.
  - intros Hel Hd.
    assert (Hr : API.getLeaderboard p = (Ok API.DEMO_LEADERBOARD, p)).
    { rewrite (getLeaderboard_fallback p p (API.offline_error (JS.message err))).
      - by rewrite offline_error_reports_failure.
      - by rewrite request_run, Hd.
      - discriminate. }
    unfold API.DEMO_LEADERBOARD in Hr.
    destruct (loadLeaderboard_shows_every_leader_aux p p _ _ Hel Hr eq_refl
                ltac:(repeat constructor; discriminate))
      as (rows & Hrows & Hrun & _ & Hlen).
    exists rows. split; [exact Hrun|].
    cbn in Hrows. injection Hrows as <-.
    split; [|split; [|exact Hlen]].
    + do 3 apply list_elem_of_further. apply list_elem_of_here.
    + do 12 apply list_elem_of_further. apply list_elem_of_here.
Qed.

End LeaderboardProps.

Lemma loadLeaderboard_shows_every_leader_witness :
  let B := Sample.browser Sample.marking None in
  ∃ rows,
    MapView.loadLeaderboard Sample.board_page
    = (Ok (), with_dom <["leaderboard" := render rows]> Sample.board_page)
    ∧ substitutions rows
      = [Data "1."; User Name "<b>Ada</b>" "&lt;b&gt;Ada&lt;/b&gt;";
         Data "1.5"; Data "<i>10</i>"]
    ∧ length (List.filter is_user_text rows) = 1.
Proof.
  intros B.
  destruct (loadLeaderboard_shows_every_leader (H := B) Sample.board_page Sample.board_page
              (JS.JObj [("name", JS.JStr "<b>Ada</b>"); ("greenScore", JS.JStr "<i>10</i>");
                        ("totalChargingTime", JS.JStr "1.5")]) []
              ltac:(by eexists) eq_refl eq_refl ltac:(repeat constructor; discriminate))
    as (rows & _ & Hrun & Hsub & Hlen).
  exists rows. split; [exact Hrun|]. split; [exact Hsub|exact Hlen].
Defined.

Lemma loadLeaderboard_shows_no_users_witness :
  let B := Sample.browser Sample.failing None in
  MapView.loadLeaderboard Sample.board_page
  = (Ok (), with_dom <["leaderboard" := MapView.no_users]> Sample.board_page).
Proof.
  intros B.
  exact (loadLeaderboard_shows_no_users (H := B) Sample.board_page Sample.board_page
           Sample.server_error ltac:(by eexists) eq_refl eq_refl
           ltac:(intros; discriminate)).
Defined.

Lemma loadLeaderboard_null_entry_witness :
  let B := Sample.browser Sample.holed None in
  ∃ e, MapView.loadLeaderboard Sample.board_page = (Throw e, Sample.board_page).
Proof.
  intros B.
  exact (loadLeaderboard_null_entry (H := B) Sample.board_page Sample.board_page
           [JS.JObj [("name", JS.JStr "Ada")]; JS.JNull] ltac:(by eexists) eq_refl
           ltac:(apply list_elem_of_further, list_elem_of_here)).
Defined.

Lemma loadLeaderboard_offline_witness :
  let B := Sample.browser Sample.offline None in
  MapView.loadLeaderboard Sample.bare = (Ok (), Sample.bare)
  ∧ ∃ rows,
      MapView.loadLeaderboard Sample.board_page
      = (Ok (), with_dom <["leaderboard" := render rows]> Sample.board_page)
      ∧ User Name "John Smith" "John Smith" ∈ rows
      ∧ User Name "Sarah Johnson" "Sarah Johnson" ∈ rows
      ∧ length (List.filter is_user_text rows) = 2.
Proof.
  intros B. split.
  - exact (proj1 (loadLeaderboard_offline (H := B) Sample.bare Sample.unreachable) eq_refl).
  - exact (proj2 (loadLeaderboard_offline (H := B) Sample.board_page Sample.unreachable)
             ltac:(by eexists) eq_refl).
Defined.

(** * Further properties of the owner dashboard *)

Section OwnerLoops.
Context `{Browser}.
Import JS Owner.


Lemma bookingCount_cases (bookings : json) (p : Page) :
  (∃ n, bookingCount bookings p = (Ok n, p)) ∨ (∃ e, bookingCount bookings p = (Throw e, p)).
Proof.
  destruct bookings; try (left; by eexists).
  unfold bookingCount, mbind, M_bind, lift.
  destruct (filter_not_cancelled items); [right|left]; by eexists.
Qed.

(** A list of items holds a [null] or none. *)
Lemma null_among (items : list json) :
  Forall (λ item, item ≠ JNull) items ∨ JNull ∈ items.
Proof.
  induction items as [|item rest [IH|IH]].
  - left. constructor.
  - destruct (null_or_not item) as [->|Hitem].
    + right. apply list_elem_of_here.
    + left. by constructor.
  - right. by apply list_elem_of_further.
Qed.

Lemma add_row_returns (item : json) (html : list piece) (p : Page) :
  bodies_arrive →
  item ≠ JNull →
  ∃ r p', add_row item html p = (Ok (html ++ r), p') ∧ row_of (station_of_json item) r
          ∧ dom p' = dom p ∧ ownerStations p' = ownerStations p.
Proof.
  intros Hb Hitem. set (c := station_of_json item).
  destruct (request_returns p "GET" ("/bookings/charger/" +:+ _id c) None Hb)
    as (j & p1 & Hr & Hd & Ho).
  destruct (bookingCount_cases j p1) as [[n Hn]|[e He]].
  - exists (row c n), p1. split; [|by repeat split; [right; exists n|..]].
    unfold add_row. erewrite try_catch_ok; [reflexivity|].
    erewrite bind_ok by (by apply read_station_record). fold c.
    unfold API.getChargerBookings. erewrite bind_ok by exact Hr.
    by erewrite bind_ok by exact Hn.
  - exists (row_without_count c), p1. split; [|by repeat split; [left|..]].
    unfold add_row. erewrite try_catch_throw.
    + erewrite bind_ok by (by apply read_station_record). reflexivity.
    + erewrite bind_ok by (by apply read_station_record). fold c.
      unfold API.getChargerBookings. erewrite bind_ok by exact Hr.
      unfold mbind, M_bind. by rewrite He.
Qed.

(** A [null] item of the station list: reading it throws in the [try]
    and again in the [catch]. *)
Lemma add_row_null (html : list piece) (p : Page) :
  ∃ e, add_row JNull html p = (Throw e, p).
Proof. by eexists. Qed.

Lemma add_row_loop (items : list json) (html : list piece) (p : Page) :
  bodies_arrive →
  Forall (λ item, item ≠ JNull) items →
  ∃ rows p', for_each add_row items html p = (Ok (html ++ concat rows), p')
             ∧ Forall2 row_of (station_of_json <$> items) rows
             ∧ dom p' = dom p ∧ ownerStations p' = ownerStations p.
Proof.
  intros Hb Hi. revert html p. induction Hi as [|item rest Hitem _ IH]; intros html p.
  - exists [], p. cbn. by rewrite app_nil_r.
  - destruct (add_row_returns item html p Hb Hitem) as (r & p1 & Hrow & Hr & Hd & Ho).
    destruct (IH (html ++ r) p1) as (rows & p' & Hloop & Hrows & Hd' & Ho').
    exists (r :: rows), p'. split; [|split; [by constructor|split; congruence]].
    cbn [for_each concat]. erewrite bind_ok by exact Hrow.
    by rewrite Hloop, <- app_assoc.
Qed.

Lemma add_row_loop_null (items : list json) (html : list piece) (p : Page) :
  bodies_arrive →
  JNull ∈ items →
  ∃ e p', for_each add_row items html p = (Throw e, p')
          ∧ dom p' = dom p ∧ ownerStations p' = ownerStations p.
Proof.
  intros Hb. revert html p. induction items as [|item rest IH]; intros html p Hin.
  - by apply elem_of_nil in Hin.
  - cbn [for_each]. destruct (null_or_not item) as [->|Hitem].
    + destruct (add_row_null html p) as [e He]. exists e, p.
      unfold mbind, M_bind. by rewrite He.
    + apply elem_of_cons in Hin as [Heq|Hin]; [by destruct Hitem|].
      destruct (add_row_returns item html p Hb Hitem) as (r & p1 & Hrow & _ & Hd & Ho).
      destruct (IH (html ++ r) p1 Hin) as (e & p' & Hloop & Hd' & Ho').
      exists e, p'. split; [|split; congruence].
      by erewrite bind_ok by exact Hrow.
Qed.





End OwnerLoops.

Section OwnerProps.
Context `{Browser}.
Import JS Owner.

(** X24.  Whatever becomes of the table, [loadOwnerStations] replaces the
    owner's station list by the items of the answer, and by the empty
    list when the answer is not a list, as after every failed fetch. *)
Theorem loadOwnerStations_replaces_the_list (p p1 : Page) (j : json) :
  bodies_arrive →
  is_Some (dom p !! "myChargersList") →
  API.getOwnerChargers p = (Ok j, p1) →
  let run := loadOwnerStations p in
  run.1 = Ok ()
  ∧ ownerStations run.2
    = match j with
      | JArr items => items
      | _ => []
      end
  ∧ ((∀ items, j ≠ JArr items) → ownerStations run.2 = []).
Proof.
  intros Hb Hel Hr run.
  destruct (request_returns p "GET" "/chargers/owner/list" None Hb)
    as (j' & p1' & Hr' & Hd & _).
  unfold API.getOwnerChargers in Hr. rewrite Hr in Hr'. injection Hr' as <- <-.
  set (stations := match j with JArr items => items | _ => [] end).
  set (p2 := with_ownerStations stations p1).
  assert (Hel2 : is_Some (dom p2 !! "myChargersList")) by (cbn; by rewrite Hd).
  assert (Hrun : ∃ html p3, run = (Ok (), with_dom <["myChargersList" := html]> p3)
                            ∧ ownerStations p3 = stations).
  { unfold run, loadOwnerStations, ownerChargers_length_is_zero.
    destruct ownerChargers_is_empty as [[|]|].
    - exists no_stations, p2. split; [|done].
      erewrite try_catch_ok; [reflexivity|].
      unfold API.getOwnerChargers. erewrite bind_ok by exact Hr.
      fold stations. erewrite bind_ok by reflexivity.
      erewrite bind_ok by reflexivity. erewrite bind_ok by reflexivity.
      by apply set_content_ok.
    - destruct (null_among stations) as [Hi|Hin].
      + destruct (add_row_loop stations table_head p2 Hb Hi)
          as (rows & p3 & Hloop & _ & Hd3 & Ho3).
        exists (render ((table_head ++ concat rows) ++ table_foot)), p3. split; [|done].
        erewrite try_catch_ok; [reflexivity|].
        unfold API.getOwnerChargers. erewrite bind_ok by exact Hr.
        fold stations. erewrite bind_ok by reflexivity.
        erewrite bind_ok by reflexivity.
        erewrite bind_ok by (erewrite bind_ok by exact Hloop; reflexivity).
        apply set_content_ok. by rewrite Hd3.
      + destruct (add_row_loop_null stations table_head p2 Hb Hin)
          as (e & p3 & Hloop & Hd3 & Ho3).
        exists could_not_load, p3. split; [|done].
        erewrite try_catch_throw; [apply set_content_ok; by rewrite Hd3|].
        unfold API.getOwnerChargers. erewrite bind_ok by exact Hr.
        fold stations. erewrite bind_ok by reflexivity.
        erewrite bind_ok by reflexivity.
        apply bind_throw, bind_throw. exact Hloop.
    - exists could_not_load, p2. split; [|done].
      erewrite try_catch_throw; [by apply set_content_ok|].
      unfold API.getOwnerChargers. erewrite bind_ok by exact Hr.
      fold stations. erewrite bind_ok by reflexivity. reflexivity. }
  destruct Hrun as (html & p3 & -> & Ho).
  cbn [fst snd]. split; [done|]. split; [exact Ho|].
  intros Hj. cbn. rewrite Ho. unfold stations. destruct j; try done. by destruct (Hj items).
Qed.




End OwnerProps.

Lemma owner_network_answers (bound : option bool) :
  bodies_arrive (H := Sample.browser Sample.owner_network bound).
Proof.
  intros req t r. cbn [network Sample.browser]. unfold Sample.owner_network, Sample.ok.
  repeat case_match; intros [= <- <-] || discriminate; discriminate.
Qed.


Lemma loadOwnerStations_replaces_the_list_witness :
  let B := Sample.browser Sample.owner_network None in
  let run := Owner.loadOwnerStations Sample.page in
  run.1 = Ok () ∧ ownerStations run.2 = Sample.demo_items.
Proof.
  intros B.
  destruct (loadOwnerStations_replaces_the_list (H := B) Sample.page Sample.page
              API.DEMO_CHARGERS (owner_network_answers None) ltac:(by eexists) eq_refl)
    as (Hok & Hlist & _).
  split; [exact Hok|exact Hlist].
Defined.




(** ** Alerts are only added *)

Section Alerts.
Context `{Browser}.
Import JS Owner.

Lemma adds_ret {A : Type} (a : A) : adds_alerts (mret a : M A).
Proof. intros p. done. Qed.

Lemma adds_throw {A : Type} (e : exn) : adds_alerts (throw e : M A).
Proof. intros p. done. Qed.

Lemma adds_lift {A : Type} (r : exn + A) : adds_alerts (lift r).
Proof. destruct r; [apply adds_throw|apply adds_ret]. Qed.

Lemma adds_bind {A B : Type} (m : M A) (f : A → M B) :
  adds_alerts m → (∀ a, adds_alerts (f a)) → adds_alerts (m ≫= f).
Proof.
  intros Hm Hf p. specialize (Hm p). unfold mbind, M_bind.
  destruct (m p) as [[a|e|] p1]; cbn [snd] in Hm |- *; [|done..].
  etrans; [exact Hm|apply Hf].
Qed.

Lemma adds_try_catch {A : Type} (m : M A) (h : exn → M A) :
  adds_alerts m → (∀ e, adds_alerts (h e)) → adds_alerts (try_catch m h).
Proof.
  intros Hm Hh p. specialize (Hm p). unfold try_catch.
  destruct (m p) as [[a|e|] p1]; cbn [snd] in Hm |- *; [done| |done].
  etrans; [exact Hm|apply Hh].
Qed.

Lemma adds_for_each {A S : Type} (f : A → S → M S) (l : list A) (s : S) :
  (∀ x s', adds_alerts (f x s')) → adds_alerts (for_each f l s).
Proof.
  intros Hf. revert s. induction l as [|x l IH]; intros s; [apply adds_ret|].
  cbn [for_each]. by apply adds_bind.
Qed.

Lemma adds_alert (msg : string) : adds_alerts (alert msg).
Proof. intros p. cbn. by apply prefix_app_r. Qed.

Lemma adds_set_content (id html : string) : adds_alerts (set_content id html).
Proof. intros p. unfold set_content. by destruct (dom p !! id). Qed.

Lemma adds_request (method endpoint : string) (data : option json) :
  adds_alerts (API.request method endpoint data).
Proof.
  intros p. rewrite request_run. destruct (delivery_of _ _) as [r|err]; [|done].
  cbn zeta. by destruct (status r =? 401)%Z, (body r).
Qed.

Lemma adds_bookingCount (bookings : json) : adds_alerts (bookingCount bookings).
Proof.
  destruct bookings; try apply adds_ret.
  apply adds_bind; [apply adds_lift|intros; apply adds_ret].
Qed.

Lemma adds_read_station (first : string) (item : json) :
  adds_alerts (read_station first item).
Proof. apply adds_bind; [apply adds_lift|intros; apply adds_ret]. Qed.

Lemma adds_loadOwnerStations : adds_alerts loadOwnerStations.
Proof.
  apply adds_try_catch; [|intros; apply adds_set_content].
  apply adds_bind; [apply adds_request|intros data].
  apply adds_bind; [by intros p|intros _].
  apply adds_bind.
  { unfold ownerChargers_length_is_zero.
    destruct ownerChargers_is_empty; [apply adds_ret|apply adds_throw]. }
  intros empty. apply adds_bind; [|intros; apply adds_set_content].
  destruct empty; [apply adds_ret|].
  apply adds_bind; [|intros; apply adds_ret].
  apply adds_for_each. intros c html.
  apply adds_try_catch;
    [|intros; apply adds_bind; [apply adds_read_station|intros; apply adds_ret]].
  apply adds_bind; [apply adds_read_station|intros charger].
  apply adds_bind; [apply adds_request|intros bookings].
  apply adds_bind; [apply adds_bookingCount|intros; apply adds_ret].
Qed.

Lemma adds_loadRecentBookings : adds_alerts loadRecentBookings.
Proof.
  apply adds_try_catch; [|intros; apply adds_set_content].
  apply adds_bind; [by intros p|intros stations].
  apply adds_bind.
  { apply adds_for_each. intros c all.
    apply adds_try_catch;
      [|intros; apply adds_bind; [apply adds_read_station|intros; apply adds_ret]].
    apply adds_bind; [apply adds_read_station|intros charger].
    apply adds_bind; [apply adds_request|intros bookings].
    destruct bookings; apply adds_ret. }
  intros all. apply adds_bind; [apply adds_lift|intros; apply adds_set_content].
Qed.

Lemma adds_loadStatistics : adds_alerts loadStatistics.
Proof.
  apply adds_try_catch.
  - apply adds_bind; [by intros p|intros stations].
    apply adds_bind.
    { apply adds_for_each. intros c n.
      apply adds_bind; [apply adds_read_station|intros charger].
      apply adds_try_catch; [|intros; apply adds_ret].
      apply adds_bind; [apply adds_request|intros bookings].
      apply adds_bind; [apply adds_bookingCount|intros; apply adds_ret]. }
    intros total.
    apply adds_bind.
    { apply adds_for_each. intros c sum.
      apply adds_bind; [apply adds_read_station|intros; apply adds_ret]. }
    intros inUse.
    repeat (apply adds_bind; [apply adds_set_content|intros _]).
    apply adds_loadRecentBookings.
  - intros e. repeat (apply adds_bind; [apply adds_set_content|intros _]).
    apply adds_set_content.
Qed.

(** X28.  [deleteCharger] sends nothing when the dialog is declined.
    When the transport fails (with a message), it shows one failure
    alert and reloads nothing: the page is otherwise as before. *)
Theorem deleteCharger_failure (id : string) (p : Page) (err : exn) :
  deleteCharger false id p = (Ok (), p)
  ∧ (delivery_of API.TIMEOUT_MS
       (network (API.options_for (localStorage p !! "token") "DELETE" ("/chargers/" +:+ id)
                   None))
     = Rejected err →
     message err ≠ "" →
     deleteCharger true id p
     = (Ok (),
        with_alert
          ("Failed to delete station: "
           +:+ (let shown := ToString (JStr (message err)) in
                if String.eqb shown "" then "Please try again" else shown)) p)).
Proof.
  split; [reflexivity|]. intros Hd Hm.
  unfold deleteCharger. cbn [negb].
  rewrite (try_catch_throw _ _ p p (Exn "Error" (ToString (JStr (message err))))); [reflexivity|].
  unfold API.deleteCharger. erewrite bind_ok by (by rewrite request_run, Hd).
  unfold mbind, M_bind, lift. cbn.
  apply String.eqb_neq in Hm. rewrite Hm. cbn [negb]. unfold or_else, throw, Auth.display. cbn [truthy]. by rewrite Hm.
Qed.

(** X29.  [deleteCharger] takes every answer without a truthy [error]
    field for a success, whatever the status of the response: the first
    thing shown is [Station deleted], before the lists are reloaded. *)
Theorem deleteCharger_reports_success (id : string) (p p1 : Page) (j : json) :
  API.deleteCharger id p = (Ok j, p1) →
  j ≠ JNull →
  truthy (opt_prop (Some j) "error") = false →
  (alerts p1 ++ ["Station deleted"]) `prefix_of` alerts (deleteCharger true id p).2.
Proof.
  intros Hr Hn He.
  set (handler := λ err : exn,
         alert ("Failed to delete station: "
                +:+ (if String.eqb (message err) "" then "Please try again"
                     else message err))).
  assert (Hrun : deleteCharger true id p
                 = try_catch (loadOwnerStations ;; loadStatistics) handler
                     (with_alert "Station deleted" p1)).
  { unfold deleteCharger, try_catch. cbn [negb].
    erewrite bind_ok by exact Hr.
    assert (Hp : prop (Some j) "error" = inr (opt_prop (Some j) "error")) by by destruct j.
    rewrite Hp. cbn [lift]. erewrite bind_ok by reflexivity. rewrite He. cbn [negb].
    erewrite bind_ok by reflexivity. reflexivity. }
  rewrite Hrun.
  apply (adds_try_catch (loadOwnerStations ;; loadStatistics) handler).
  - apply adds_bind; [apply adds_loadOwnerStations|intros; apply adds_loadStatistics].
  - intros e. apply adds_alert.
Qed.

End Alerts.

Lemma deleteCharger_failure_witness :
  let B := Sample.browser Sample.offline None in
  Owner.deleteCharger false "demo-1" Sample.owner_page = (Ok (), Sample.owner_page)
  ∧ Owner.deleteCharger true "demo-1" Sample.owner_page
    = (Ok (), with_alert "Failed to delete station: Failed to fetch" Sample.owner_page).
Proof.
  intros B.
  destruct (deleteCharger_failure (H := B) "demo-1" Sample.owner_page Sample.unreachable)
    as [Hno Hfail].
  split; [exact Hno|]. exact (Hfail eq_refl ltac:(discriminate)).
Defined.

Lemma deleteCharger_reports_success_witness :
  let B := Sample.browser Sample.failing None in
  (API.deleteCharger "demo-1" Sample.owner_page).1 = Ok Sample.server_error
  ∧ ["Station deleted"] `prefix_of` alerts (Owner.deleteCharger true "demo-1" Sample.owner_page).2.
Proof.
  intros B. split; [reflexivity|].
  exact (deleteCharger_reports_success (H := B) "demo-1" Sample.owner_page Sample.owner_page
           Sample.server_error eq_refl ltac:(discriminate) eq_refl).
Defined.
